(** * SDG 9 aiD: the analysis dispatcher and the submit handler of [app.py]

    A shallow embedding of [src/app.py].  The script talks to two outside
    worlds: the generative-model client ([generate_content], the response
    object) and the UI toolkit ([st.*] calls).  Both are modelled as events
    recorded in a trace; what the outside world answers is a parameter
    (record [World]).  Python faults are explicit: a computation either
    returns a value or raises an exception object.

    Text is modelled over the code points 0-255 (ASCII and Latin-1), one
    per character; [lower] and [isspace] act on them as Python's
    [str.lower] and [str.isspace] do. *)

From Stdlib Require Import Strings.String Strings.Ascii List Bool Arith Lia.
Import ListNotations.
Open Scope string_scope.
Open Scope bool_scope.

(** ** Python string operations used by the script *)

Module PyStr.

(** [str.isspace] on one character: TAB, LF, VT, FF, CR, the four
    separators FS, GS, RS, US, the space, and in the Latin-1 half the next
    line control (0x85) and the no-break space (0xA0). *)
Definition isspace (c : ascii) : bool :=
  let n := nat_of_ascii c in
  ((9 <=? n)%nat && (n <=? 13)%nat) || ((28 <=? n)%nat && (n <=? 32)%nat)
  || (n =? 133)%nat || (n =? 160)%nat.

(** [str.lower] on one character: the letters A-Z, and in the Latin-1 half
    the capitals 0xC0-0xDE but for the multiplication sign 0xD7, move up by
    32; every other code stays. *)
Definition lower_char (c : ascii) : ascii :=
  let n := nat_of_ascii c in
  if ((65 <=? n)%nat && (n <=? 90)%nat)
     || ((192 <=? n)%nat && (n <=? 222)%nat && negb (n =? 215)%nat)
  then ascii_of_nat (n + 32) else c.

(** [s.lower()] *)
Fixpoint lower (s : string) : string :=
  match s with
  | EmptyString => EmptyString
  | String c t => String (lower_char c) (lower t)
  end.

Fixpoint lstrip (s : string) : string :=
  match s with
  | EmptyString => EmptyString
  | String c t => if isspace c then lstrip t else s
  end.

Fixpoint rstrip (s : string) : string :=
  match s with
  | EmptyString => EmptyString
  | String c t =>
      match rstrip t with
      | EmptyString => if isspace c then EmptyString else String c EmptyString
      | r => String c r
      end
  end.

(** [s.strip()] with no argument: blanks removed at both ends. *)
Definition strip (s : string) : string := rstrip (lstrip s).

(** Truth value of a [str]: false exactly for the empty string. *)
Definition truthy (s : string) : bool :=
  match s with EmptyString => false | String _ _ => true end.

(** [needle in hay]: [needle] occurs as a contiguous run of [hay]. *)
Fixpoint contains (needle hay : string) : bool :=
  String.prefix needle hay
  || match hay with
     | EmptyString => false
     | String _ t => contains needle t
     end.

(** The one-character string "\n". *)
Definition nl : string := String (ascii_of_nat 10) EmptyString.

(** Every character of [s] is blank (true of the empty string). *)
Fixpoint all_space (s : string) : bool :=
  match s with
  | EmptyString => true
  | String c t => isspace c && all_space t
  end.

End PyStr.

(** ** Python values, exceptions, outcomes *)

(** A decoded [PIL.Image.Image]: its mode, its size and its raw pixel data.
    The script never looks inside one. *)
Record Image := mkImage {
  im_mode : string;
  im_size : nat * nat;
  im_data : list nat
}.

(** The values that can reach [analyze_content]: a [str], an [Image.Image],
    or anything else ([None], a number, a [bytes] object). *)
Inductive pyvalue :=
| PyNone
| PyStr (s : string)
| PyInt (n : nat)
| PyBytes (b : list nat)
| PyImage (img : Image).

(** A raised exception object.  [is_Exception] tells whether its class
    derives from [Exception], which is what an [except Exception] clause
    tests; signals such as the one raised by [st.stop()] derive from
    [BaseException] only.  [exc_str] is [str(e)]. *)
Record exc := mkExc {
  is_Exception : bool;
  exc_str : string
}.

Inductive outcome (A : Type) :=
| Returned (a : A)
| Raised (e : exc).
Arguments Returned {A} a.
Arguments Raised {A} e.

(** A response object of the client: what [response.resolve()] does and
    what reading [response.text] gives. *)
Record response := mkResponse {
  resolve : outcome unit;
  text : outcome string
}.

(** A [genai.GenerativeModel] handle: the object's identity and the model
    name it was constructed with. *)
Record GenerativeModel := mkModel {
  handle_id : nat;
  model_name : string
}.

Definition model_eqb (a b : GenerativeModel) : bool :=
  Nat.eqb (handle_id a) (handle_id b) && String.eqb (model_name a) (model_name b).

(** ** Events *)

Inductive panel_kind := Info | Warning | Error | Markdown.

Inductive event :=
| GenerateContent (model : GenerativeModel) (contents : list pyvalue)
                  (stream : option bool)
| Print (line : string)
| ResultsArea (kind : panel_kind) (body : string)
| Spinner (label : string)
| Expander (label : string)
| StImage (image : pyvalue) (caption : string) (use_column_width : bool)
| DownloadButton (label data file_name mime : string).

(** ** The effect monad: a trace of events and an outcome *)

Definition M (A : Type) : Type := list event * outcome A.

Definition ret {A} (a : A) : M A := ([], Returned a).

Definition bind {A B} (m : M A) (f : A -> M B) : M B :=
  match m with
  | (t, Returned a) => let (t', o) := f a in ((t ++ t')%list, o)
  | (t, Raised e) => (t, Raised e)
  end.

Definition emit (ev : event) : M unit := ([ev], Returned tt).

Definition raise {A} (e : exc) : M A := ([], Raised e).

Definition lift {A} (o : outcome A) : M A := ([], o).

(** [try: body except Exception as e: handler e] *)
Definition try_except {A} (body : M A) (handler : exc -> M A) : M A :=
  match body with
  | (t, Returned a) => (t, Returned a)
  | (t, Raised e) =>
      if is_Exception e
      then let (t', o) := handler e in ((t ++ t')%list, o)
      else (t, Raised e)
  end.

Definition trace {A} (m : M A) : list event := fst m.
Definition result {A} (m : M A) : outcome A := snd m.

Notation "x <- m ;; k" := (bind m (fun x => k))
  (at level 61, m at next level, right associativity).
Notation "m ;;; k" := (bind m (fun _ => k))
  (at level 61, right associativity).

(** ** The outside world *)

Record World := mkWorld {
  (** what the provider answers to [model.generate_content(contents, ...)] *)
  remote_generate : GenerativeModel -> list pyvalue -> option bool -> outcome response;
  (** what [Image.open(io.BytesIO(image_bytes))] does on the uploaded bytes *)
  Image_open : list nat -> outcome Image;
  (** whether [st.image(image, ...)] can draw the image: [Image.open] reads
      the pixel data lazily, so a file that opened may still fail here *)
  st_image_outcome : pyvalue -> outcome unit
}.

(** ** Module-level model handles (lines 22-27) *)

(** [genai.GenerativeModel(name)]; [id] is the identity of the new object. *)
Definition new_GenerativeModel (id : nat) (name : string) : GenerativeModel :=
  mkModel id name.

Definition vision_model : GenerativeModel := new_GenerativeModel 0 "gemini-1.5-flash".
Definition text_model : GenerativeModel := new_GenerativeModel 1 "gemini-1.5-flash".

(** ** The analysis function (lines 30-60) *)

Section Dispatcher.

Variable W : World.

(** [model.generate_content(contents)] / [..., stream=False)]: one request
    to the provider. *)
Definition generate_content (model : GenerativeModel) (contents : list pyvalue)
           (stream : option bool) : M response :=
  emit (GenerateContent model contents stream) ;;;
  lift (remote_generate W model contents stream).

Definition print (line : string) : M unit := emit (Print line).

(** The hint appended in the [except] clause (lines 50-57), as a suffix of
    [error_message]. *)
Definition error_hint (s : string) : string :=
  if PyStr.contains "API key not valid" s then
    PyStr.nl ++ "Please check if your GOOGLE_API_KEY is configured correctly."
  else if PyStr.contains "content has been blocked" (PyStr.lower s)
          || PyStr.contains "safety settings" (PyStr.lower s) then
    PyStr.nl ++ "The input may have triggered Google's safety filters."
  else if PyStr.contains "Resource has been exhausted" s
          || PyStr.contains "quota" (PyStr.lower s) then
    PyStr.nl ++ "API quota likely exceeded. Check your usage limits."
  else if PyStr.contains "Deadline exceeded" s then
    PyStr.nl ++ "The request timed out. Try again later."
  else "".

(** Lines 32-46: the body of the [try]. *)
Definition analyze_body (prompt content_input : pyvalue) : M string :=
  match content_input with
  | PyStr s =>
      if negb (PyStr.truthy (PyStr.strip s)) then
        ret "Error: Please provide some text to analyze."
      else
        let model_input := [prompt; content_input] in
        response <- generate_content text_model model_input None ;;
        lift (text response)
  | PyImage _ =>
      let model_input := [prompt; content_input] in
      response <- generate_content vision_model model_input (Some false) ;;
      lift (resolve response) ;;;
      lift (text response)
  | _ => ret "Error: Invalid input type provided."
  end.

(** Lines 48-60: the [except Exception as e] clause. *)
Definition analyze_handler (e : exc) : M string :=
  let error_message := "An error occurred during analysis: " ++ exc_str e in
  let error_message := error_message ++ error_hint (exc_str e) in
  print ("Gemini API Error: " ++ exc_str e) ;;;
  ret ("Error during analysis. Details: " ++ error_message).

Definition analyze_content (prompt content_input : pyvalue) : M string :=
  try_except (analyze_body prompt content_input) analyze_handler.

End Dispatcher.

(** ** The submit handler (lines 112-169) *)

(** What [st.file_uploader] returns when a file was chosen. *)
Record UploadedFile := mkUpload {
  upload_name : string;
  getvalue : list nat
}.

(** Truth value of a Python object, as tested by [if analysis_input:].  An
    [Image.Image] defines neither [__bool__] nor [__len__], so it is true. *)
Definition truthy_value (v : pyvalue) : bool :=
  match v with
  | PyNone => false
  | PyStr s => PyStr.truthy s
  | PyInt n => negb (Nat.eqb n 0)
  | PyBytes b => match b with [] => false | _ :: _ => true end
  | PyImage _ => true
  end.

(** The signal raised by [st.stop()]: a [BaseException] that is not an
    [Exception]. *)
Definition StopException : exc := mkExc false "".

Definition st_stop {A} : M A := raise StopException.

Definition results_area (kind : panel_kind) (body : string) : M unit :=
  emit (ResultsArea kind body).

Definition input_type_is (input_type : option string) (name : string) : bool :=
  match input_type with
  | Some s => String.eqb s name
  | None => false
  end.

Section Presentation.

Variable W : World.

(** The rubric text bound to [SDG9_PROMPT] (lines 63-76).  The handler only
    passes it on, so it is kept abstract. *)
Variable SDG9_PROMPT : string.

(** Lines 124-143: choose the analysis input, image first. *)
Definition select_input (input_text : string) (uploaded_image : option UploadedFile)
  : M (pyvalue * option string) :=
  match uploaded_image with
  | Some f =>
      try_except
        (let image_bytes := getvalue f in
         img <- lift (Image_open W image_bytes) ;;
         results_area Info "Analyzing uploaded image... Please wait." ;;;
         ret (PyImage img, Some "image"))
        (fun e =>
           results_area Error ("Error processing image: " ++ exc_str e) ;;;
           st_stop)
  | None =>
      if PyStr.truthy (PyStr.strip input_text) then
        results_area Info "Analyzing text description... Please wait." ;;;
        ret (PyStr input_text, Some "text")
      else
        results_area Warning "Please enter text or upload an image for analysis." ;;;
        st_stop
  end.

(** Lines 153-154: the expander and, inside it, the image.  [st.image]
    stands in no [try]: when it raises, the fault ends the run there. *)
Definition show_uploaded_image (analysis_input : pyvalue) : M unit :=
  emit (Expander "See Uploaded Image") ;;;
  lift (st_image_outcome W analysis_input) ;;;
  emit (StImage analysis_input "Analyzed Image" true).

(** Lines 146-166: run the analysis and show its result.  The assignments of
    lines 157-158 rebind two local names and have no effect. *)
Definition show_analysis (analysis_input : pyvalue) (input_type : option string)
  : M unit :=
  if truthy_value analysis_input then
    emit (Spinner "SDG 9 aiD is analyzing... This may take a moment.") ;;;
    analysis_result <- analyze_content W (PyStr SDG9_PROMPT) analysis_input ;;
    results_area Markdown analysis_result ;;;
    (if input_type_is input_type "image" && truthy_value analysis_input then
       show_uploaded_image analysis_input
     else ret tt) ;;;
    emit (DownloadButton "Download Analysis Result" analysis_result
                         "analysis_result.txt" "text/plain")
  else ret tt.

(** Lines 123-169: one run of the script from the button test on. *)
Definition handle_submit (analyze_button : bool) (input_text : string)
           (uploaded_image : option UploadedFile) : M unit :=
  if analyze_button then
    sel <- select_input input_text uploaded_image ;;
    show_analysis (fst sel) (snd sel)
  else
    results_area Info "Enter text or upload an image and click 'Analyze Input'.".

End Presentation.

(** ** Observations on a trace *)

(** The requests sent through a given handle. *)
Fixpoint calls_to (model : GenerativeModel) (t : list event)
  : list (list pyvalue * option bool) :=
  match t with
  | [] => []
  | GenerateContent m contents stream :: t' =>
      if model_eqb m model then (contents, stream) :: calls_to model t'
      else calls_to model t'
  | _ :: t' => calls_to model t'
  end.

(** Every request of the trace, whatever the handle. *)
Fixpoint network_calls (t : list event) : list event :=
  match t with
  | [] => []
  | GenerateContent m contents stream :: t' =>
      GenerateContent m contents stream :: network_calls t'
  | _ :: t' => network_calls t'
  end.

(** What the results placeholder shows once the trace is over: the body of
    the last write to it. *)
Fixpoint results_panel (t : list event) : option (panel_kind * string) :=
  match t with
  | [] => None
  | ResultsArea k body :: t' =>
      match results_panel t' with
      | Some r => Some r
      | None => Some (k, body)
      end
  | _ :: t' => results_panel t'
  end.

(** The files offered for download: (data, file name, MIME type). *)
Fixpoint downloads (t : list event) : list (string * string * string) :=
  match t with
  | [] => []
  | DownloadButton _ data name mime :: t' => (data, name, mime) :: downloads t'
  | _ :: t' => downloads t'
  end.

(** Events the dispatcher itself can produce: requests and printed lines. *)
Definition dispatcher_event (ev : event) : bool :=
  match ev with
  | GenerateContent _ _ _ | Print _ => true
  | _ => false
  end.

(** The model names of the handles the requests of a trace went through. *)
Fixpoint called_models (t : list event) : list string :=
  match t with
  | [] => []
  | GenerateContent m _ _ :: t' => model_name m :: called_models t'
  | _ :: t' => called_models t'
  end.

(** ** The diagnostic text, named *)

Module Diagnostic.

(** What every diagnostic starts with, up to the error text. *)
Definition generic_prefix : string :=
  "Error during analysis. Details: An error occurred during analysis: ".

Definition credential_hint : string :=
  PyStr.nl ++ "Please check if your GOOGLE_API_KEY is configured correctly.".
Definition content_policy_hint : string :=
  PyStr.nl ++ "The input may have triggered Google's safety filters.".
Definition quota_hint : string :=
  PyStr.nl ++ "API quota likely exceeded. Check your usage limits.".
Definition timeout_hint : string :=
  PyStr.nl ++ "The request timed out. Try again later.".

(** [needle] occurs in [s] whatever the case of the letters of [s]. *)
Definition contains_nocase (needle s : string) : bool :=
  PyStr.contains needle (PyStr.lower s).

(** The four patterns as the script tests them: (a), the first half of (c)
    and (d) compare the text as it is, the others compare it lower-cased. *)
Definition matches_credential (s : string) : bool :=
  PyStr.contains "API key not valid" s.
Definition matches_content_policy (s : string) : bool :=
  contains_nocase "content has been blocked" s || contains_nocase "safety settings" s.
Definition matches_quota (s : string) : bool :=
  PyStr.contains "Resource has been exhausted" s || contains_nocase "quota" s.
Definition matches_timeout (s : string) : bool :=
  PyStr.contains "Deadline exceeded" s.

(** The selection rule in the words of the specification: every pattern is
    looked up without regard to case, first match in the order (a)-(d). *)
Definition spec_hint (s : string) : string :=
  if contains_nocase "api key not valid" s then credential_hint
  else if contains_nocase "content has been blocked" s
          || contains_nocase "safety settings" s then content_policy_hint
  else if contains_nocase "resource has been exhausted" s
          || contains_nocase "quota" s then quota_hint
  else if contains_nocase "deadline exceeded" s then timeout_hint
  else "".

End Diagnostic.

(** ** Worlds used in the examples *)

Module Examples.

(** A provider that answers every request with the same text. *)
Definition answering (reply : string) : World :=
  mkWorld (fun _ _ _ => Returned (mkResponse (Returned tt) (Returned reply)))
          (fun b => Returned (mkImage "RGB" (1, 1) b))
          (fun _ => Returned tt).

(** A provider whose every request fails with the exception [e]. *)
Definition failing (e : exc) : World :=
  mkWorld (fun _ _ _ => Raised e)
          (fun b => Returned (mkImage "RGB" (1, 1) b))
          (fun _ => Returned tt).

(** The provider answers, every upload opens, but no image can be drawn:
    the pixel data of the file is cut short. *)
Definition truncated_upload (reply : string) : World :=
  mkWorld (fun _ _ _ => Returned (mkResponse (Returned tt) (Returned reply)))
          (fun b => Returned (mkImage "RGB" (1, 1) b))
          (fun _ => Raised (mkExc true "image file is truncated")).

(** The no-break space, as a string. *)
Definition nbsp : string := String (ascii_of_nat 160) EmptyString.

(** An image with no pixel at all. *)
Definition empty_image : Image := mkImage "RGB" (0, 0) [].

(** An uploaded file: the first bytes of a PNG. *)
Definition png_header : list nat := [137; 80; 78; 71].
Definition upload : UploadedFile := mkUpload "site.png" png_header.

End Examples.

(** ** More observations on a trace *)

(** The lines written to the process log. *)
Fixpoint printed (t : list event) : list string :=
  match t with
  | [] => []
  | Print line :: t' => line :: printed t'
  | _ :: t' => printed t'
  end.

(** The labels of the spinners shown, one per call of the dispatcher made
    by the handler. *)
Fixpoint spinners (t : list event) : list string :=
  match t with
  | [] => []
  | Spinner label :: t' => label :: spinners t'
  | _ :: t' => spinners t'
  end.

(** The labels of the expanders opened. *)
Fixpoint expanders (t : list event) : list string :=
  match t with
  | [] => []
  | Expander label :: t' => label :: expanders t'
  | _ :: t' => expanders t'
  end.

(** The objects drawn by [st.image]. *)
Fixpoint images_shown (t : list event) : list pyvalue :=
  match t with
  | [] => []
  | StImage image _ _ :: t' => image :: images_shown t'
  | _ :: t' => images_shown t'
  end.

(** Whether the handler can draw the selected input again, when it has to:
    always for a text, which is not drawn; for an upload, when [st.image]
    returns. *)
Definition redisplay_succeeds (W : World) (v : pyvalue) (ty : option string) : bool :=
  if input_type_is ty "image" then
    match st_image_outcome W v with
    | Returned _ => true
    | Raised _ => false
    end
  else true.

(** The payload and the input type a run of the handler passes on to the
    analysis, if it gets that far: the button was pressed and either the
    upload decodes or, without upload, the entered text is not blank. *)
Definition selected_input (W : World) (analyze_button : bool)
           (input_text : string) (uploaded_image : option UploadedFile)
  : option (pyvalue * option string) :=
  if analyze_button then
    match uploaded_image with
    | Some f =>
        match Image_open W (getvalue f) with
        | Returned img => Some (PyImage img, Some "image")
        | Raised _ => None
        end
    | None =>
        if PyStr.truthy (PyStr.strip input_text)
        then Some (PyStr input_text, Some "text")
        else None
    end
  else None.

(** ** The whole script (lines 8-27 and 78-169) *)

Module Script.

(** The double-quote character, as a string. *)
Definition dq : string := String (ascii_of_nat 34) EmptyString.

(** Lines 63-76: the rubric sent with every request. *)
Definition SDG9_PROMPT : string :=
  EmptyString ++ PyStr.nl ++
  "You are an AI assistant specialized in analyzing violations of Sustainable Development Goal 9 (Industry, Innovation, and Infrastructure), focusing specifically on signs of unfair or unsustainable industrial practices based only on the provided input (text description or image)." ++ PyStr.nl ++
  EmptyString ++ PyStr.nl ++
  "Analyze the provided input:" ++ PyStr.nl ++
  "1. Identify any visual or described elements that might indicate issues related to SDG 9, such as(what given below are only examples, you can bring any element you find, so consuder everything profoundly ):" ++ PyStr.nl ++
  "   * Unsustainable Industrialization: Excessive smoke/pollution, improper waste disposal, environmental damage (e.g., polluted water, deforestation near factories)." ++ PyStr.nl ++
  "   * Lack of Resilient Infrastructure: Visibly unsafe factory buildings, damaged infrastructure caused by industrial activity." ++ PyStr.nl ++
  "   * Non-Inclusive/Unfair Labor Practices (Visual Cues): Lack of safety equipment, signs of child labor, overcrowded or unsafe environments." ++ PyStr.nl ++
  "   * Technological Gaps: Outdated, poorly maintained, or highly polluting machinery." ++ PyStr.nl ++
  "2. Explain your reasoning for each identified element, linking it to SDG 9 concerns, profoundly and precisely in the narrative of UN and SDG literature, as if you are an officer of the UN. Acknowledge ONLY and only if input provides limited evidence or if interpretations are uncertain." ++ PyStr.nl ++
  "3. If no clear indicators are found, state that clearly." ++ PyStr.nl ++
  EmptyString ++ PyStr.nl ++
  "4. (show Analysis Report instead of conclusion)" ++ dq ++ "Analysis Report" ++ dq ++ ": If it violates SDG 9, then in the very first sentence, state it starting with " ++ dq ++ "YES" ++ dq ++ " (If you have too much uncertainties due to too much limited evidence on the input say Maybe YES type of things); if it doesn't, then state it starting with " ++ dq ++ "NO" ++ dq ++ ". Make very strong, definitive judgments, as if the judgment is universal. (Focus on indicators which are violating SDG 9 and be very acute in your observation.)" ++ PyStr.nl ++
  EmptyString.

(** Lines 82-106: the fixed texts of the page head. *)
Definition page_style : string :=
  EmptyString ++ PyStr.nl ++
  "    <style>" ++ PyStr.nl ++
  "    .header {" ++ PyStr.nl ++
  "        text-align: center;" ++ PyStr.nl ++
  "        color: #0D47A1;" ++ PyStr.nl ++
  "        font-size: 2em;" ++ PyStr.nl ++
  "        font-weight: bold;" ++ PyStr.nl ++
  "    }" ++ PyStr.nl ++
  "    .description {" ++ PyStr.nl ++
  "        text-align: center;" ++ PyStr.nl ++
  "        color: #1565C0;" ++ PyStr.nl ++
  "        font-size: 1.2em;" ++ PyStr.nl ++
  "        margin-top: -10px;" ++ PyStr.nl ++
  "    }" ++ PyStr.nl ++
  "    </style>" ++ PyStr.nl ++
  "    ".

Definition page_header : string :=
  "<div class=" ++ dq ++ "header" ++ dq ++ ">SDG 9 aiD</div>".

Definition page_description : string :=
  "<div class=" ++ dq ++ "description" ++ dq ++ ">A tool to analyze industrial practices and their alignment with Sustainable Development Goal 9</div>".

Definition page_intro : string :=
  EmptyString ++ PyStr.nl ++
  "    This AI tool, created by AHMAD ABDULLAH, helps analyze text or images to detect potential violations of **Sustainable Development Goal 9 (Industry, Innovation, and Infrastructure)**. " ++ PyStr.nl ++
  "    It aims to identify issues like unsustainable industrialization, unsafe labor practices, and outdated infrastructure." ++ PyStr.nl ++
  "    **Disclaimer**: This is a prototype tool. Results are indicative, not conclusive proof." ++ PyStr.nl ++
  EmptyString.

(** What a run of the script does to the page and to its surroundings; the
    events of the submit handler and of the dispatcher are carried by
    [Body]. *)
Inductive page_event :=
| LoadDotenv
| Configure (api_key : option string)
| NewModel (id : nat) (name : string)
| StError (body : string)
| SetPageConfig (page_title layout : string)
| StMarkdown (body : string) (unsafe_allow_html : bool)
| StWrite (body : string)
| Subheader (body : string)
| TextArea (label : string)
| FileUploader (label : string) (types : list string)
| Button (label : string)
| Placeholder
| Body (ev : event).

(** The surroundings of a run: the process environment once [load_dotenv()]
    has run, and what the client library does at start-up. *)
Record Host := mkHost {
  os_getenv : string -> option string;
  (** [genai.configure(api_key=key)] *)
  configure : option string -> outcome unit;
  (** the [id]-th call of [genai.GenerativeModel(name)] *)
  construct : nat -> string -> outcome unit
}.

(** What the three input widgets hold in this run. *)
Record Widgets := mkWidgets {
  text_area_value : string;
  file_uploader_value : option UploadedFile;
  button_value : bool
}.

Definition P (A : Type) : Type := list page_event * outcome A.

Definition pret {A} (a : A) : P A := ([], Returned a).

Definition pbind {A B} (m : P A) (f : A -> P B) : P B :=
  match m with
  | (t, Returned a) => let (t', o) := f a in ((t ++ t')%list, o)
  | (t, Raised e) => (t, Raised e)
  end.

Definition pemit (ev : page_event) : P unit := ([ev], Returned tt).

Definition plift {A} (o : outcome A) : P A := ([], o).

(** [try: body except Exception as e: handler e], on the page. *)
Definition ptry {A} (body : P A) (handler : exc -> P A) : P A :=
  match body with
  | (t, Returned a) => (t, Returned a)
  | (t, Raised e) =>
      if is_Exception e
      then let (t', o) := handler e in ((t ++ t')%list, o)
      else (t, Raised e)
  end.

Definition page_trace {A} (m : P A) : list page_event := fst m.
Definition page_result {A} (m : P A) : outcome A := snd m.

(** A computation of the handler, run inside the script. *)
Definition embed {A} (m : M A) : P A := (map Body (fst m), snd m).

Notation "x <~ m ;; k" := (pbind m (fun x => k))
  (at level 61, m at next level, right associativity).
Notation "m >>> k" := (pbind m (fun _ => k))
  (at level 61, right associativity).

Definition st_error (body : string) : P unit := pemit (StError body).

Definition page_stop {A} : P A := plift (Raised StopException).

(** Truth value of what [os.getenv] returns: [None] and the empty string
    are false. *)
Definition truthy_env (v : option string) : bool :=
  match v with
  | None => false
  | Some s => PyStr.truthy s
  end.

(** Lines 12-19: hand the key to the client, then test that there is one. *)
Definition configure_api (H : Host) : P unit :=
  ptry
    (pemit (Configure (os_getenv H "GOOGLE_API_KEY")) >>>
     plift (configure H (os_getenv H "GOOGLE_API_KEY")) >>>
     if negb (truthy_env (os_getenv H "GOOGLE_API_KEY")) then
       st_error "GOOGLE_API_KEY not found. Please ensure it's set in your .env file." >>>
       page_stop
     else pret tt)
    (fun e =>
       st_error ("Error configuring Gemini API: " ++ exc_str e) >>>
       page_stop).

(** Lines 22-27: build the two handles. *)
Definition make_models (H : Host) : P unit :=
  ptry
    (pemit (NewModel 0 "gemini-1.5-flash") >>>
     plift (construct H 0 "gemini-1.5-flash") >>>
     pemit (NewModel 1 "gemini-1.5-flash") >>>
     plift (construct H 1 "gemini-1.5-flash"))
    (fun e =>
       st_error ("Error initializing Gemini models: " ++ exc_str e) >>>
       page_stop).

(** Lines 79-121: the page down to the results placeholder; returns what
    the three input widgets hold. *)
Definition draw_page (ws : Widgets) : P (string * option UploadedFile * bool) :=
  pemit (SetPageConfig "SDG 9 aiD" "wide") >>>
  pemit (StMarkdown page_style true) >>>
  pemit (StMarkdown page_header true) >>>
  pemit (StMarkdown page_description true) >>>
  pemit (StWrite page_intro) >>>
  pemit (StMarkdown "---" false) >>>
  pemit (Subheader "Provide Input for Analysis:") >>>
  pemit (TextArea "Enter a description of an industrial practice or scene:") >>>
  let input_text := text_area_value ws in
  pemit (FileUploader "Or upload an image of the industrial scene:"
                      ["jpg"; "jpeg"; "png"]) >>>
  let uploaded_image := file_uploader_value ws in
  pemit (Button "Analyze Input") >>>
  let analyze_button := button_value ws in
  pemit (StMarkdown "---" false) >>>
  pemit (Subheader "Analysis Results:") >>>
  pemit Placeholder >>>
  pret (input_text, uploaded_image, analyze_button).

(** One run of [app.py], top to bottom. *)
Definition script (H : Host) (W : World) (ws : Widgets) : P unit :=
  pemit LoadDotenv >>>
  configure_api H >>>
  make_models H >>>
  inputs <~ draw_page ws ;;
  let '(input_text, uploaded_image, analyze_button) := inputs in
  embed (handle_submit W SDG9_PROMPT analyze_button input_text uploaded_image).

(** The events of the handler and the dispatcher within a run. *)
Fixpoint body_events (t : list page_event) : list event :=
  match t with
  | [] => []
  | Body ev :: t' => ev :: body_events t'
  | _ :: t' => body_events t'
  end.

(** What the run puts on the page before the handler: everything but the
    start-up steps and the handler's own events. *)
Definition is_widget (ev : page_event) : bool :=
  match ev with
  | LoadDotenv | Configure _ | NewModel _ _ | StError _ | Body _ => false
  | _ => true
  end.


End Script.

(** * Properties *)

(** ** Blank strings *)

Lemma lstrip_all_space (s : string) :
  PyStr.all_space s = true -> PyStr.lstrip s = "".
Proof.
  induction s as [|c t IH]; simpl; [reflexivity|].
  intros H. apply andb_true_iff in H as [Hc Ht].
  rewrite Hc. now apply IH.
Qed.

Lemma lstrip_not_all_space (s : string) :
  PyStr.all_space s = false ->
  exists c t, PyStr.lstrip s = String c t /\ PyStr.isspace c = false.
Proof.
  induction s as [|c t IH]; simpl; [discriminate|].
  destruct (PyStr.isspace c) eqn:Hc; simpl.
  - exact IH.
  - intros _. now exists c, t.
Qed.

Lemma rstrip_keeps_head (c : ascii) (t : string) :
  PyStr.isspace c = false -> PyStr.truthy (PyStr.rstrip (String c t)) = true.
Proof.
  intros Hc. simpl. destruct (PyStr.rstrip t); [rewrite Hc|]; reflexivity.
Qed.

(** [s.strip()] is empty exactly when [s] consists of blanks only. *)
Lemma strip_truthy_all_space (s : string) :
  PyStr.truthy (PyStr.strip s) = negb (PyStr.all_space s).
Proof.
  unfold PyStr.strip. destruct (PyStr.all_space s) eqn:H.
  - now rewrite lstrip_all_space.
  - destruct (lstrip_not_all_space s H) as (c & t & -> & Hc).
    now apply rstrip_keeps_head.
Qed.

(** ** Observers and concatenated traces *)

Lemma network_calls_app (a b : list event) :
  network_calls (a ++ b) = (network_calls a ++ network_calls b)%list.
Proof.
  induction a as [|ev a IH]; [reflexivity|].
  destruct ev; simpl; now rewrite ?IH.
Qed.

Lemma downloads_app (a b : list event) :
  downloads (a ++ b) = (downloads a ++ downloads b)%list.
Proof.
  induction a as [|ev a IH]; [reflexivity|].
  destruct ev; simpl; now rewrite ?IH.
Qed.

Lemma results_panel_app (a b : list event) :
  results_panel (a ++ b) =
  match results_panel b with
  | Some r => Some r
  | None => results_panel a
  end.
Proof.
  induction a as [|ev a IH]; simpl.
  - now destruct (results_panel b).
  - destruct ev; simpl; rewrite ?IH; try reflexivity.
    destruct (results_panel b); [reflexivity|].
    now destruct (results_panel a).
Qed.

(** The requests through one handle are found among the requests. *)
Lemma calls_to_network_calls (m : GenerativeModel) (t : list event) :
  calls_to m t = calls_to m (network_calls t).
Proof.
  induction t as [|ev t IH]; [reflexivity|].
  destruct ev; simpl; rewrite ?IH; reflexivity.
Qed.

Lemma dispatcher_trace_no_ui (t : list event) :
  forallb dispatcher_event t = true ->
  downloads t = [] /\ results_panel t = None.
Proof.
  induction t as [|ev t IH]; [now split|].
  simpl. intros H. apply andb_true_iff in H as [Hev Ht].
  destruct (IH Ht) as [Hd Hr].
  destruct ev; simpl in *; try discriminate; now split.
Qed.

(** ** The dispatcher, branch by branch *)

(** Runs the dispatcher symbolically: one case per answer of the world. *)
Ltac dispatch :=
  unfold analyze_content, analyze_body, analyze_handler, generate_content,
    print, bind, emit, lift, ret, try_except, trace, result; simpl;
  repeat match goal with
    | |- context [remote_generate ?W ?m ?c ?s] =>
        destruct (remote_generate W m c s) eqn:?; simpl
    | |- context [resolve ?r] => destruct (resolve r) eqn:?; simpl
    | |- context [text ?r] => destruct (text r) eqn:?; simpl
    | |- context [is_Exception ?e] => destruct (is_Exception e) eqn:?; simpl
    end.

Section DispatcherFacts.

Variable W : World.
Variable prompt : pyvalue.

Lemma analyze_body_blank (s : string) :
  PyStr.truthy (PyStr.strip s) = false ->
  analyze_body W prompt (PyStr s) =
  ret "Error: Please provide some text to analyze.".
Proof. intros H. unfold analyze_body. now rewrite H. Qed.

(** A return of the [try] body is the return of the function. *)
Lemma analyze_content_returned (v : pyvalue) (t : list event) (out : string) :
  analyze_body W prompt v = (t, Returned out) ->
  analyze_content W prompt v = (t, Returned out).
Proof. intros H. unfold analyze_content. now rewrite H. Qed.

(** A caught fault: the function returns the diagnostic built from it. *)
Lemma analyze_content_caught (v : pyvalue) (e : exc) :
  result (analyze_body W prompt v) = Raised e ->
  is_Exception e = true ->
  result (analyze_content W prompt v) =
  Returned (Diagnostic.generic_prefix ++ exc_str e ++ error_hint (exc_str e)).
Proof.
  unfold analyze_content, try_except, result.
  destruct (analyze_body W prompt v) as [t o]; simpl.
  intros -> ->. reflexivity.
Qed.

(** A fault that is not an [Exception] passes through the clause. *)
Lemma analyze_content_uncaught (v : pyvalue) (e : exc) :
  result (analyze_body W prompt v) = Raised e ->
  is_Exception e = false ->
  result (analyze_content W prompt v) = Raised e.
Proof.
  unfold analyze_content, try_except, result.
  destruct (analyze_body W prompt v) as [t o]; simpl.
  intros -> ->. reflexivity.
Qed.

(** The faults of the [try] body are the faults of the client: the first of
    the request, [resolve()] (image only) and the reading of [.text] that
    raises. *)
Lemma analyze_body_fault_text (s : string) (e : exc) :
  PyStr.truthy (PyStr.strip s) = true ->
  (result (analyze_body W prompt (PyStr s)) = Raised e <->
   match remote_generate W text_model [prompt; PyStr s] None with
   | Raised e' => e' = e
   | Returned r => text r = Raised e
   end).
Proof.
  intros Hs. unfold analyze_body. rewrite Hs. dispatch;
    split; congruence.
Qed.

Lemma analyze_body_fault_image (img : Image) (e : exc) :
  result (analyze_body W prompt (PyImage img)) = Raised e <->
  match remote_generate W vision_model [prompt; PyImage img] (Some false) with
  | Raised e' => e' = e
  | Returned r =>
      match resolve r with
      | Raised e' => e' = e
      | Returned _ => text r = Raised e
      end
  end.
Proof. dispatch; split; congruence. Qed.

(** With a string that is not blank, one request through the text handle. *)
Lemma text_run_calls (s : string) :
  PyStr.truthy (PyStr.strip s) = true ->
  network_calls (trace (analyze_content W prompt (PyStr s))) =
  [GenerateContent text_model [prompt; PyStr s] None].
Proof.
  intros Hs. unfold analyze_content, analyze_body. rewrite Hs.
  dispatch; reflexivity.
Qed.

(** With an image, one request through the vision handle. *)
Lemma image_run_calls (img : Image) :
  network_calls (trace (analyze_content W prompt (PyImage img))) =
  [GenerateContent vision_model [prompt; PyImage img] (Some false)].
Proof. dispatch; reflexivity. Qed.

(** With an image, that request comes first. *)
Lemma image_run_starts_with_call (img : Image) :
  exists rest,
    trace (analyze_content W prompt (PyImage img)) =
    GenerateContent vision_model [prompt; PyImage img] (Some false) :: rest.
Proof. dispatch; eauto. Qed.

(** The dispatcher touches neither the results panel nor the page. *)
Lemma analyze_content_events (v : pyvalue) :
  forallb dispatcher_event (trace (analyze_content W prompt v)) = true.
Proof.
  destruct v as [ | s | n | b | img]; try reflexivity.
  - unfold analyze_content, analyze_body.
    destruct (negb (PyStr.truthy (PyStr.strip s))); [reflexivity|].
    dispatch; reflexivity.
  - dispatch; reflexivity.
Qed.

(** Every request goes to the one model name. *)
Lemma analyze_content_called_models (v : pyvalue) :
  Forall (fun name => name = "gemini-1.5-flash")
         (called_models (trace (analyze_content W prompt v))).
Proof.
  destruct v as [ | s | n | b | img]; try (simpl; constructor).
  - unfold analyze_content, analyze_body.
    destruct (negb (PyStr.truthy (PyStr.strip s))); [constructor|].
    dispatch; repeat constructor.
  - dispatch; repeat constructor.
Qed.

End DispatcherFacts.

(** ** The submit handler, step by step *)

Section PresentationFacts.

Variable W : World.
Variable SDG9_PROMPT : string.

(** With an upload, the entered text plays no part in the selection. *)
Lemma select_input_upload (input_text : string) (f : UploadedFile) :
  select_input W input_text (Some f) =
  match Image_open W (getvalue f) with
  | Returned img =>
      ([ResultsArea Info "Analyzing uploaded image... Please wait."],
       Returned (PyImage img, Some "image"))
  | Raised e =>
      if is_Exception e
      then ([ResultsArea Error ("Error processing image: " ++ exc_str e)],
            Raised StopException)
      else ([], Raised e)
  end.
Proof.
  unfold select_input, try_except, bind, lift, results_area, emit, ret, st_stop,
    raise.
  destruct (Image_open W (getvalue f)) as [img|e]; simpl; [reflexivity|].
  destruct (is_Exception e); reflexivity.
Qed.

(** What [show_analysis] does with an input that counts as true: the
    spinner, the analysis, its rendering, then for an upload the expander
    and the image, which may fail, and last the download. *)
Lemma show_analysis_run (v : pyvalue) (ty : option string) :
  truthy_value v = true ->
  show_analysis W SDG9_PROMPT v ty =
  match analyze_content W (PyStr SDG9_PROMPT) v with
  | (t, Returned out) =>
      let download :=
        DownloadButton "Download Analysis Result" out
                       "analysis_result.txt" "text/plain" in
      let rest :=
        if input_type_is ty "image" then
          match st_image_outcome W v with
          | Returned _ =>
              ([Expander "See Uploaded Image"; StImage v "Analyzed Image" true;
                download], Returned tt)
          | Raised e => ([Expander "See Uploaded Image"], Raised e)
          end
        else ([download], Returned tt) in
      ((Spinner "SDG 9 aiD is analyzing... This may take a moment." :: t)
         ++ ResultsArea Markdown out :: fst rest,
       snd rest)%list
  | (t, Raised e) =>
      (Spinner "SDG 9 aiD is analyzing... This may take a moment." :: t, Raised e)
  end.
Proof.
  intros Hv. unfold show_analysis, show_uploaded_image. rewrite Hv.
  destruct (analyze_content W (PyStr SDG9_PROMPT) v) as [t [out|e]];
    unfold bind, emit, lift, results_area, ret; simpl; [|reflexivity].
  destruct (input_type_is ty "image"); simpl; [|reflexivity].
  destruct (st_image_outcome W v) as [u|e]; reflexivity.
Qed.

(** A run that got as far as the analysis: the result is rendered and, if
    the run gets past the image, offered for download; or the fault of the
    dispatcher ends the run. *)
Lemma show_analysis_panel_download (v : pyvalue) (ty : option string)
      (before : list event) (k : panel_kind) (body : string) :
  truthy_value v = true ->
  downloads before = [] ->
  results_panel before = Some (k, body) ->
  let t := (before ++ trace (show_analysis W SDG9_PROMPT v ty))%list in
  match result (analyze_content W (PyStr SDG9_PROMPT) v) with
  | Returned out =>
      results_panel t = Some (Markdown, out)
      /\ downloads t =
         if redisplay_succeeds W v ty
         then [(out, "analysis_result.txt", "text/plain")]
         else []
  | Raised _ =>
      results_panel t = Some (k, body) /\ downloads t = []
  end.
Proof.
  intros Hv Hd Hp t. subst t.
  rewrite (show_analysis_run v ty Hv).
  pose proof (analyze_content_events W (PyStr SDG9_PROMPT) v) as Hev.
  unfold redisplay_succeeds.
  destruct (analyze_content W (PyStr SDG9_PROMPT) v) as [t [out|e]];
    unfold trace, result in *; cbn [fst snd] in *;
    destruct (dispatcher_trace_no_ui t Hev) as [Hdt Hrt].
  - cbv zeta. rewrite results_panel_app, downloads_app, Hd. simpl.
    rewrite results_panel_app, downloads_app, Hdt, ?Hrt.
    destruct (input_type_is ty "image");
      [destruct (st_image_outcome W v)|]; simpl; split; reflexivity.
  - rewrite results_panel_app, downloads_app, Hd. simpl.
    rewrite Hrt, Hdt, Hp. split; reflexivity.
Qed.

Lemma strip_truthy_nonempty (s : string) :
  PyStr.truthy (PyStr.strip s) = true -> PyStr.truthy s = true.
Proof. destruct s; [discriminate | reflexivity]. Qed.

(** The requests of a run that got as far as the analysis are those of the
    dispatcher. *)
Lemma show_analysis_network_calls (v : pyvalue) (ty : option string) :
  truthy_value v = true ->
  network_calls (trace (show_analysis W SDG9_PROMPT v ty)) =
  network_calls (trace (analyze_content W (PyStr SDG9_PROMPT) v)).
Proof.
  intros Hv. rewrite (show_analysis_run v ty Hv).
  destruct (analyze_content W (PyStr SDG9_PROMPT) v) as [t [out|e]];
    unfold trace; cbn [fst]; [|reflexivity].
  cbv zeta. simpl network_calls at 1. rewrite network_calls_app.
  destruct (input_type_is ty "image"); [|simpl; now rewrite app_nil_r].
  destruct (st_image_outcome W v); simpl; now rewrite app_nil_r.
Qed.

End PresentationFacts.

(** ** Runs of the submit handler *)

Lemma spinners_app (a b : list event) :
  spinners (a ++ b) = (spinners a ++ spinners b)%list.
Proof.
  induction a as [|ev a IH]; [reflexivity|].
  destruct ev; simpl; now rewrite ?IH.
Qed.

Lemma expanders_app (a b : list event) :
  expanders (a ++ b) = (expanders a ++ expanders b)%list.
Proof.
  induction a as [|ev a IH]; [reflexivity|].
  destruct ev; simpl; now rewrite ?IH.
Qed.

Lemma images_shown_app (a b : list event) :
  images_shown (a ++ b) = (images_shown a ++ images_shown b)%list.
Proof.
  induction a as [|ev a IH]; [reflexivity|].
  destruct ev; simpl; now rewrite ?IH.
Qed.

Lemma dispatcher_trace_no_widgets (t : list event) :
  forallb dispatcher_event t = true ->
  spinners t = [] /\ expanders t = [] /\ images_shown t = [].
Proof.
  induction t as [|ev t IH]; [now repeat split|].
  simpl. intros H. apply andb_true_iff in H as [Hev Ht].
  destruct (IH Ht) as (Hs & He & Hi).
  destruct ev; simpl in *; try discriminate; now repeat split.
Qed.

Section HandlerRuns.

Variable W : World.
Variable SDG9_PROMPT : string.

(** A run that does not get as far as the analysis leaves at most one
    notice in the results panel, which is no rendered analysis, and ends
    there. *)
Lemma handle_submit_not_selected (analyze_button : bool) (input_text : string)
      (uploaded_image : option UploadedFile) :
  selected_input W analyze_button input_text uploaded_image = None ->
  let run := handle_submit W SDG9_PROMPT analyze_button input_text uploaded_image in
  network_calls (trace run) = []
  /\ spinners (trace run) = []
  /\ expanders (trace run) = []
  /\ images_shown (trace run) = []
  /\ downloads (trace run) = []
  /\ forall shown, results_panel (trace run) <> Some (Markdown, shown).
Proof.
  unfold selected_input, handle_submit.
  destruct analyze_button;
    [|intros _; repeat split; intros shown; discriminate].
  destruct uploaded_image as [f|].
  - rewrite select_input_upload.
    destruct (Image_open W (getvalue f)) as [img|e]; [discriminate|].
    intros _. destruct (is_Exception e); simpl; repeat split;
      intros shown; discriminate.
  - unfold select_input.
    destruct (PyStr.truthy (PyStr.strip input_text)); [discriminate|].
    intros _. simpl. repeat split. intros shown; discriminate.
Qed.

(** A run that gets as far as the analysis: the notice, then the analysis
    of the selected payload. *)
Lemma handle_submit_selected (analyze_button : bool) (input_text : string)
      (uploaded_image : option UploadedFile) (v : pyvalue) (ty : option string) :
  selected_input W analyze_button input_text uploaded_image = Some (v, ty) ->
  truthy_value v = true
  /\ length (network_calls (trace (analyze_content W (PyStr SDG9_PROMPT) v))) = 1
  /\ exists notice,
      handle_submit W SDG9_PROMPT analyze_button input_text uploaded_image =
      (ResultsArea Info notice :: trace (show_analysis W SDG9_PROMPT v ty),
       result (show_analysis W SDG9_PROMPT v ty)).
Proof.
  unfold selected_input, handle_submit.
  destruct analyze_button; [|discriminate].
  destruct uploaded_image as [f|].
  - rewrite select_input_upload.
    destruct (Image_open W (getvalue f)) as [img|e]; [|discriminate].
    intros [= <- <-]. split; [reflexivity|]. split.
    + now rewrite image_run_calls.
    + eexists. unfold bind. simpl fst. simpl snd.
      destruct (show_analysis W SDG9_PROMPT (PyImage img) (Some "image"));
        reflexivity.
  - unfold select_input.
    destruct (PyStr.truthy (PyStr.strip input_text)) eqn:Hs; [|discriminate].
    intros [= <- <-]. split; [now apply strip_truthy_nonempty|]. split.
    + now rewrite text_run_calls.
    + eexists. unfold bind, results_area, emit, ret. simpl fst. simpl snd.
      destruct (show_analysis W SDG9_PROMPT (PyStr input_text) (Some "text"));
        reflexivity.
Qed.

(** The spinner, the expander and the image of a run of [show_analysis]. *)
Lemma show_analysis_widgets (v : pyvalue) (ty : option string) :
  truthy_value v = true ->
  spinners (trace (show_analysis W SDG9_PROMPT v ty)) =
    ["SDG 9 aiD is analyzing... This may take a moment."]
  /\ expanders (trace (show_analysis W SDG9_PROMPT v ty)) =
     match result (analyze_content W (PyStr SDG9_PROMPT) v) with
     | Returned _ =>
         if input_type_is ty "image" then ["See Uploaded Image"] else []
     | Raised _ => []
     end
  /\ images_shown (trace (show_analysis W SDG9_PROMPT v ty)) =
     match result (analyze_content W (PyStr SDG9_PROMPT) v) with
     | Returned _ =>
         if input_type_is ty "image" then
           match st_image_outcome W v with
           | Returned _ => [v]
           | Raised _ => []
           end
         else []
     | Raised _ => []
     end.
Proof.
  intros Hv. rewrite (show_analysis_run W SDG9_PROMPT v ty Hv).
  pose proof (analyze_content_events W (PyStr SDG9_PROMPT) v) as Hev.
  destruct (analyze_content W (PyStr SDG9_PROMPT) v) as [t [out|e]];
    unfold trace, result in *; cbn [fst snd] in *;
    destruct (dispatcher_trace_no_widgets t Hev) as (Hs & He & Hi).
  - cbv zeta. simpl.
    rewrite spinners_app, expanders_app, images_shown_app, Hs, He, Hi.
    destruct (input_type_is ty "image");
      [destruct (st_image_outcome W v)|]; simpl; repeat split.
  - simpl. rewrite Hs, He, Hi. repeat split.
Qed.

(** How a run of [show_analysis] ends. *)
Lemma show_analysis_result (v : pyvalue) (ty : option string) :
  truthy_value v = true ->
  result (show_analysis W SDG9_PROMPT v ty) =
  match result (analyze_content W (PyStr SDG9_PROMPT) v) with
  | Returned _ =>
      if input_type_is ty "image" then
        match st_image_outcome W v with
        | Returned _ => Returned tt
        | Raised e => Raised e
        end
      else Returned tt
  | Raised e => Raised e
  end.
Proof.
  intros Hv. rewrite (show_analysis_run W SDG9_PROMPT v ty Hv).
  destruct (analyze_content W (PyStr SDG9_PROMPT) v) as [t [out|e]];
    [|reflexivity].
  unfold result. cbn [fst snd]. cbv zeta.
  destruct (input_type_is ty "image");
    [destruct (st_image_outcome W v)|]; reflexivity.
Qed.

End HandlerRuns.

(** ** Faults of the model call *)

(** C1, as the specification words it, fails: on the fault text
    "api key not valid" the case-blind rule picks the credential hint, while
    the function returns the prefix and the text with no hint at all. *)
Lemma lowercase_key_message_gets_no_hint :
  let e := mkExc true "api key not valid" in
  let W := Examples.failing e in
  let run := analyze_content W (PyStr "rubric") (PyStr "smoke over the plant") in
  result (analyze_body W (PyStr "rubric") (PyStr "smoke over the plant")) = Raised e
  /\ Diagnostic.spec_hint (exc_str e) = Diagnostic.credential_hint
  /\ result run = Returned (Diagnostic.generic_prefix ++ "api key not valid")
  /\ result run <>
     Returned (Diagnostic.generic_prefix ++ exc_str e
               ++ Diagnostic.spec_hint (exc_str e)).
Proof.
  cbv zeta. repeat split; try (vm_compute; reflexivity).
  vm_compute. discriminate.
Qed.

(** C1, amended.  When the model call raises an [Exception], the function
    returns the generic prefix, the error text, and at most one hint, the
    first that applies in this order: (a) the text contains
    "API key not valid", letter case as written; (b) its lower-cased form
    contains "content has been blocked" or "safety settings"; (c) the text
    contains "Resource has been exhausted" as written, or its lower-cased
    form contains "quota"; (d) the text contains "Deadline exceeded" as
    written; no hint when none applies. *)
Theorem diagnostic_hint_by_priority (W : World) (prompt v : pyvalue) (e : exc) :
  result (analyze_body W prompt v) = Raised e ->
  is_Exception e = true ->
  let s := exc_str e in
  let hint :=
    if Diagnostic.matches_credential s then Diagnostic.credential_hint
    else if Diagnostic.matches_content_policy s then Diagnostic.content_policy_hint
    else if Diagnostic.matches_quota s then Diagnostic.quota_hint
    else if Diagnostic.matches_timeout s then Diagnostic.timeout_hint
    else "" in
  result (analyze_content W prompt v) =
    Returned (Diagnostic.generic_prefix ++ s ++ hint)
  /\ In hint [""; Diagnostic.credential_hint; Diagnostic.content_policy_hint;
              Diagnostic.quota_hint; Diagnostic.timeout_hint].
Proof.
  intros Hbody He s hint. split.
  - rewrite (analyze_content_caught W prompt v e Hbody He). reflexivity.
  - subst hint.
    destruct (Diagnostic.matches_credential s); [simpl; tauto|].
    destruct (Diagnostic.matches_content_policy s); [simpl; tauto|].
    destruct (Diagnostic.matches_quota s); [simpl; tauto|].
    destruct (Diagnostic.matches_timeout s); simpl; tauto.
Qed.

Lemma diagnostic_hint_by_priority_witness :
  let e := mkExc true "429 Quota limit reached for this project" in
  let W := Examples.failing e in
  result (analyze_content W (PyStr "rubric") (PyStr "smoke over the plant")) =
    Returned (Diagnostic.generic_prefix
              ++ "429 Quota limit reached for this project"
              ++ Diagnostic.quota_hint).
Proof.
  exact (proj1 (diagnostic_hint_by_priority
                  (Examples.failing (mkExc true "429 Quota limit reached for this project"))
                  (PyStr "rubric") (PyStr "smoke over the plant")
                  (mkExc true "429 Quota limit reached for this project")
                  eq_refl eq_refl)).
Defined.

(** C2.  Every [Exception] raised by the model call is caught: the function
    returns a string, which is the generic prefix followed by the error text
    (and then by what the hint rule adds); for the error text
    "Deadline exceeded while waiting" the string is the prefix, that text
    and the timeout hint. *)
Theorem model_fault_returns_diagnostic (W : World) (prompt v : pyvalue) (e : exc) :
  result (analyze_body W prompt v) = Raised e ->
  is_Exception e = true ->
  (exists hint,
      result (analyze_content W prompt v) =
      Returned (Diagnostic.generic_prefix ++ exc_str e ++ hint))
  /\ (exc_str e = "Deadline exceeded while waiting" ->
      result (analyze_content W prompt v) =
      Returned (Diagnostic.generic_prefix ++ "Deadline exceeded while waiting"
                ++ Diagnostic.timeout_hint)).
Proof.
  intros Hbody He.
  rewrite (analyze_content_caught W prompt v e Hbody He). split.
  - now exists (error_hint (exc_str e)).
  - intros ->. reflexivity.
Qed.

Lemma model_fault_returns_diagnostic_witness :
  let e := mkExc true "Deadline exceeded while waiting" in
  let W := Examples.failing e in
  result (analyze_content W (PyStr "rubric") (PyStr "smoke over the plant")) =
    Returned (Diagnostic.generic_prefix ++ "Deadline exceeded while waiting"
              ++ Diagnostic.timeout_hint).
Proof.
  exact (proj2 (model_fault_returns_diagnostic
                  (Examples.failing (mkExc true "Deadline exceeded while waiting"))
                  (PyStr "rubric") (PyStr "smoke over the plant")
                  (mkExc true "Deadline exceeded while waiting")
                  eq_refl eq_refl) eq_refl).
Defined.

(** ** Dispatch on the payload *)

(** C3.  A string payload whose trimmed content is non-empty makes exactly
    one request, through the text handle, carrying the two-element list
    [prompt, payload]; nothing goes through the vision handle; and when the
    request and the reading of [response.text] succeed, the function returns
    that text unchanged. *)
Theorem text_payload_one_text_request (W : World) (prompt : pyvalue) (s : string) :
  PyStr.truthy (PyStr.strip s) = true ->
  let run := analyze_content W prompt (PyStr s) in
  network_calls (trace run) = [GenerateContent text_model [prompt; PyStr s] None]
  /\ calls_to text_model (trace run) = [([prompt; PyStr s], None)]
  /\ calls_to vision_model (trace run) = []
  /\ match remote_generate W text_model [prompt; PyStr s] None with
     | Returned r =>
         match text r with
         | Returned out => result run = Returned out
         | Raised _ => True
         end
     | Raised _ => True
     end.
Proof.
  intros Hs run. subst run.
  pose proof (text_run_calls W prompt s Hs) as Hcalls.
  repeat split; try (rewrite calls_to_network_calls, Hcalls; reflexivity).
  - exact Hcalls.
  - clear Hcalls. unfold analyze_content, analyze_body. rewrite Hs.
    dispatch; exact I || reflexivity.
Qed.

Lemma text_payload_one_text_request_witness :
  let W := Examples.answering "NO. The scene shows no sign of a breach." in
  let s := "Factory dumping chemical waste into river" in
  let run := analyze_content W (PyStr "rubric") (PyStr s) in
  network_calls (trace run) =
    [GenerateContent text_model [PyStr "rubric"; PyStr s] None]
  /\ result run = Returned "NO. The scene shows no sign of a breach.".
Proof.
  pose proof (text_payload_one_text_request
                (Examples.answering "NO. The scene shows no sign of a breach.")
                (PyStr "rubric") "Factory dumping chemical waste into river"
                eq_refl) as H.
  cbv zeta in *. destruct H as (Hcalls & _ & _ & Hout).
  split; [exact Hcalls | exact Hout].
Defined.

(** C4.  An image payload makes exactly one request, through the vision
    handle, carrying [prompt, payload] with [stream=False]; nothing goes
    through the text handle; and when the request, [resolve()] and the
    reading of [response.text] succeed, the function returns that text
    unchanged. *)
Theorem image_payload_one_vision_request (W : World) (prompt : pyvalue) (img : Image) :
  let run := analyze_content W prompt (PyImage img) in
  network_calls (trace run) =
    [GenerateContent vision_model [prompt; PyImage img] (Some false)]
  /\ calls_to vision_model (trace run) = [([prompt; PyImage img], Some false)]
  /\ calls_to text_model (trace run) = []
  /\ match remote_generate W vision_model [prompt; PyImage img] (Some false) with
     | Returned r =>
         match resolve r, text r with
         | Returned _, Returned out => result run = Returned out
         | _, _ => True
         end
     | Raised _ => True
     end.
Proof.
  intros run. subst run.
  pose proof (image_run_calls W prompt img) as Hcalls.
  repeat split; try (rewrite calls_to_network_calls, Hcalls; reflexivity).
  - exact Hcalls.
  - clear Hcalls. dispatch; exact I || reflexivity.
Qed.

(** C5.  A string payload that is empty or made of blanks only is answered
    with the fixed text and without any effect: no request is sent through
    either handle. *)
Theorem blank_text_rejected_locally (W : World) (prompt : pyvalue) (s : string) :
  PyStr.all_space s = true ->
  analyze_content W prompt (PyStr s) =
    ([], Returned "Error: Please provide some text to analyze.")
  /\ network_calls (trace (analyze_content W prompt (PyStr s))) = [].
Proof.
  intros Hs.
  assert (Hb : PyStr.truthy (PyStr.strip s) = false)
    by (rewrite strip_truthy_all_space, Hs; reflexivity).
  assert (E : analyze_content W prompt (PyStr s) =
              ([], Returned "Error: Please provide some text to analyze.")).
  { apply analyze_content_returned. now apply analyze_body_blank. }
  split; [exact E | now rewrite E].
Qed.

Lemma blank_text_rejected_locally_witness :
  analyze_content (Examples.answering "YES") (PyStr "rubric")
                  (PyStr (" " ++ PyStr.nl ++ Examples.nbsp)) =
  ([], Returned "Error: Please provide some text to analyze.").
Proof.
  exact (proj1 (blank_text_rejected_locally (Examples.answering "YES")
                  (PyStr "rubric") (" " ++ PyStr.nl ++ Examples.nbsp) eq_refl)).
Defined.

(** C6.  A payload that is neither a string nor an image is answered with
    the fixed text and without any effect. *)
Theorem other_payload_rejected (W : World) (prompt v : pyvalue) :
  (forall s, v <> PyStr s) ->
  (forall img, v <> PyImage img) ->
  analyze_content W prompt v = ([], Returned "Error: Invalid input type provided.")
  /\ network_calls (trace (analyze_content W prompt v)) = [].
Proof.
  intros Hstr Himg.
  destruct v as [ | s | n | b | img]; try (split; reflexivity).
  - now destruct (Hstr s).
  - now destruct (Himg img).
Qed.

Lemma other_payload_rejected_witness :
  analyze_content (Examples.answering "YES") (PyStr "rubric") (PyBytes [137; 80; 78; 71]) =
  ([], Returned "Error: Invalid input type provided.").
Proof.
  apply (other_payload_rejected (Examples.answering "YES") (PyStr "rubric")
           (PyBytes [137; 80; 78; 71])); intros x; discriminate.
Defined.

(** C10.  No image payload is turned away locally: whatever the image, an
    image without pixels included, the first thing the function does is the
    request through the vision handle, so it never answers an image with an
    empty trace as it does a blank string. *)
Theorem image_payload_never_rejected_locally (W : World) (prompt : pyvalue) :
  (forall img, exists rest,
      trace (analyze_content W prompt (PyImage img)) =
      GenerateContent vision_model [prompt; PyImage img] (Some false) :: rest)
  /\ (forall img, trace (analyze_content W prompt (PyImage img)) <> [])
  /\ calls_to vision_model
       (trace (analyze_content W prompt (PyImage Examples.empty_image))) =
     [([prompt; PyImage Examples.empty_image], Some false)].
Proof.
  split; [apply image_run_starts_with_call|]. split.
  - intros img E.
    destruct (image_run_starts_with_call W prompt img) as [rest Hrest].
    rewrite E in Hrest. discriminate.
  - rewrite calls_to_network_calls, image_run_calls. reflexivity.
Qed.

(** C9.  Both handles are built from the model name 'gemini-1.5-flash':
    they are two objects with one configuration, and every request the
    dispatcher sends, through either of them, goes to that model name. *)
Theorem handles_share_model_name (W : World) (prompt v : pyvalue) :
  model_name vision_model = "gemini-1.5-flash"
  /\ model_name text_model = "gemini-1.5-flash"
  /\ model_name vision_model = model_name text_model
  /\ Forall (fun name => name = "gemini-1.5-flash")
            (called_models (trace (analyze_content W prompt v))).
Proof.
  repeat split. apply analyze_content_called_models.
Qed.

(** ** The submit handler *)

(** C7.  When a file was uploaded, the run of the handler does not depend on
    the entered text; nothing is requested through the text handle; and if
    the upload decodes to an image, the one request of the run goes through
    the vision handle with that image as payload (if it does not decode, no
    request is made at all). *)
Theorem upload_takes_priority_over_text (W : World) (SDG9_PROMPT : string)
        (input_text : string) (f : UploadedFile) :
  let run := handle_submit W SDG9_PROMPT true input_text (Some f) in
  (forall other_text,
      handle_submit W SDG9_PROMPT true other_text (Some f) = run)
  /\ calls_to text_model (trace run) = []
  /\ match Image_open W (getvalue f) with
     | Returned img =>
         network_calls (trace run) =
         [GenerateContent vision_model [PyStr SDG9_PROMPT; PyImage img] (Some false)]
     | Raised _ => network_calls (trace run) = []
     end.
Proof.
  intros run. subst run. split.
  - intros other_text. unfold handle_submit.
    now rewrite !select_input_upload.
  - assert (H : match Image_open W (getvalue f) with
                | Returned img =>
                    network_calls
                      (trace (handle_submit W SDG9_PROMPT true input_text (Some f))) =
                    [GenerateContent vision_model
                       [PyStr SDG9_PROMPT; PyImage img] (Some false)]
                | Raised _ =>
                    network_calls
                      (trace (handle_submit W SDG9_PROMPT true input_text (Some f))) = []
                end).
    { unfold handle_submit. rewrite select_input_upload.
      destruct (Image_open W (getvalue f)) as [img|e].
      - pose proof (show_analysis_network_calls W SDG9_PROMPT (PyImage img)
                      (Some "image") eq_refl) as Hn.
        rewrite image_run_calls in Hn.
        unfold bind; simpl.
        destruct (show_analysis W SDG9_PROMPT (PyImage img) (Some "image"))
          as [t o]. exact Hn.
      - destruct (is_Exception e); reflexivity. }
    split; [|exact H].
    rewrite calls_to_network_calls.
    destruct (Image_open W (getvalue f)); rewrite H; reflexivity.
Qed.

(** C8.  In every run of the handler the string rendered in the results
    panel and the string offered for download are the same string, the one
    the dispatcher returned for the input selected in that run (the decoded
    upload, or else the entered text).  The download is named
    analysis_result.txt, of type text/plain, and follows the rendering
    unless drawing the uploaded image fails in between; a run that selects
    no input, or whose analysis ends on a fault, renders no analysis and
    offers no download. *)
Theorem panel_and_download_agree (W : World) (SDG9_PROMPT : string)
        (analyze_button : bool) (input_text : string)
        (uploaded_image : option UploadedFile) :
  let run := handle_submit W SDG9_PROMPT analyze_button input_text uploaded_image in
  match selected_input W analyze_button input_text uploaded_image with
  | Some (payload, input_type) =>
      match result (analyze_content W (PyStr SDG9_PROMPT) payload) with
      | Returned out =>
          results_panel (trace run) = Some (Markdown, out)
          /\ downloads (trace run) =
             if redisplay_succeeds W payload input_type
             then [(out, "analysis_result.txt", "text/plain")]
             else []
      | Raised _ =>
          downloads (trace run) = []
          /\ forall shown, results_panel (trace run) <> Some (Markdown, shown)
      end
  | None =>
      downloads (trace run) = []
      /\ forall shown, results_panel (trace run) <> Some (Markdown, shown)
  end.
Proof.
  intros run. subst run.
  destruct (selected_input W analyze_button input_text uploaded_image)
    as [[v ty]|] eqn:Hsel.
  - destruct (handle_submit_selected W SDG9_PROMPT _ _ _ v ty Hsel)
      as (Hv & _ & notice & ->).
    pose proof (show_analysis_panel_download W SDG9_PROMPT v ty
                  [ResultsArea Info notice] Info notice Hv eq_refl eq_refl) as Hpd.
    cbv zeta in Hpd.
    assert (E : trace (ResultsArea Info notice
                         :: trace (show_analysis W SDG9_PROMPT v ty),
                       result (show_analysis W SDG9_PROMPT v ty)) =
                ([ResultsArea Info notice]
                   ++ trace (show_analysis W SDG9_PROMPT v ty))%list)
      by reflexivity.
    rewrite E.
    destruct (result (analyze_content W (PyStr SDG9_PROMPT) v)) as [out|e].
    + exact Hpd.
    + destruct Hpd as [Hp Hd]. split; [exact Hd|].
      intros shown. rewrite Hp. discriminate.
  - destruct (handle_submit_not_selected W SDG9_PROMPT _ _ _ Hsel)
      as (_ & _ & _ & _ & Hd & Hp).
    split; assumption.
Qed.

Lemma panel_and_download_agree_witness :
  let run := handle_submit (Examples.answering "NO.") "rubric" true "ignored"
                           (Some Examples.upload) in
  results_panel (trace run) = Some (Markdown, "NO.")
  /\ downloads (trace run) = [("NO.", "analysis_result.txt", "text/plain")].
Proof.
  exact (panel_and_download_agree (Examples.answering "NO.") "rubric" true
           "ignored" (Some Examples.upload)).
Defined.

(** ** Scenarios of the specification, run on the model *)

Module Scenarios.

(** Empty text, no image: the warning, no request, no download. *)
Example empty_text_no_image :
  handle_submit (Examples.answering "YES") "rubric" true "" None =
  ([ResultsArea Warning "Please enter text or upload an image for analysis."],
   Raised StopException).
Proof. reflexivity. Qed.

(** A description, no image: one request through the text handle. *)
Example text_only :
  trace (handle_submit (Examples.answering "YES. Waste reaches the river.")
           "rubric" true "Factory dumping chemical waste into river" None) =
  [ ResultsArea Info "Analyzing text description... Please wait.";
    Spinner "SDG 9 aiD is analyzing... This may take a moment.";
    GenerateContent text_model
      [PyStr "rubric"; PyStr "Factory dumping chemical waste into river"] None;
    ResultsArea Markdown "YES. Waste reaches the river.";
    DownloadButton "Download Analysis Result" "YES. Waste reaches the river."
                   "analysis_result.txt" "text/plain" ].
Proof. reflexivity. Qed.

(** An upload together with entered text: the image is analysed. *)
Example image_and_text :
  trace (handle_submit (Examples.answering "NO.") "rubric" true "ignored"
           (Some Examples.upload)) =
  [ ResultsArea Info "Analyzing uploaded image... Please wait.";
    Spinner "SDG 9 aiD is analyzing... This may take a moment.";
    GenerateContent vision_model
      [PyStr "rubric"; PyImage (mkImage "RGB" (1, 1) Examples.png_header)] (Some false);
    ResultsArea Markdown "NO.";
    Expander "See Uploaded Image";
    StImage (PyImage (mkImage "RGB" (1, 1) Examples.png_header))
            "Analyzed Image" true;
    DownloadButton "Download Analysis Result" "NO."
                   "analysis_result.txt" "text/plain" ].
Proof. reflexivity. Qed.

(** The letter case of the fault text matters for three of the patterns. *)
Example deadline_as_written :
  error_hint "504 Deadline exceeded" = Diagnostic.timeout_hint.
Proof. reflexivity. Qed.

Example deadline_lower_case :
  error_hint "504 deadline exceeded" = "".
Proof. reflexivity. Qed.

Example safety_any_case :
  error_hint "Blocked by SAFETY SETTINGS" = Diagnostic.content_policy_hint.
Proof. reflexivity. Qed.

(** Priority: a text with both the key pattern and "quota" gets the
    credential hint only. *)
Example key_before_quota :
  error_hint "API key not valid; quota unknown" = Diagnostic.credential_hint.
Proof. reflexivity. Qed.

(** An upload that opens but cannot be drawn: the analysis is rendered,
    then the run ends on the fault of [st.image], before the download. *)
Example upload_cut_short :
  handle_submit (Examples.truncated_upload "NO.") "rubric" true "ignored"
                (Some Examples.upload) =
  ([ ResultsArea Info "Analyzing uploaded image... Please wait.";
     Spinner "SDG 9 aiD is analyzing... This may take a moment.";
     GenerateContent vision_model
       [PyStr "rubric"; PyImage (mkImage "RGB" (1, 1) Examples.png_header)]
       (Some false);
     ResultsArea Markdown "NO.";
     Expander "See Uploaded Image" ],
   Raised (mkExc true "image file is truncated")).
Proof. reflexivity. Qed.

(** A no-break space alone is a blank text, for the dispatcher and for the
    handler. *)
Example no_break_space_is_blank :
  analyze_content (Examples.answering "YES") (PyStr "rubric")
                  (PyStr Examples.nbsp) =
  ([], Returned "Error: Please provide some text to analyze.")
  /\ handle_submit (Examples.answering "YES") "rubric" true Examples.nbsp None =
     ([ResultsArea Warning "Please enter text or upload an image for analysis."],
      Raised StopException).
Proof. split; reflexivity. Qed.

(** [lower] on a Latin-1 capital. *)
Example lower_latin1 :
  PyStr.lower (String (ascii_of_nat 201) "COLE") = String (ascii_of_nat 233) "cole".
Proof. reflexivity. Qed.

(** A signal that is not an [Exception] is not turned into a string. *)
Example stop_signal_passes :
  result (analyze_content (Examples.failing StopException) (PyStr "rubric")
            (PyStr "smoke")) = Raised StopException.
Proof. reflexivity. Qed.

End Scenarios.

(** * Further properties of the dispatcher *)

(** ** Letter case of the fault text *)

Lemma lower_char_idempotent (c : ascii) :
  PyStr.lower_char (PyStr.lower_char c) = PyStr.lower_char c.
Proof. destruct c as [[] [] [] [] [] [] [] []]; reflexivity. Qed.

(** What is found at the head of a lower-cased text is itself lower-case. *)
Lemma prefix_of_lower (needle s : string) :
  String.prefix needle (PyStr.lower s) = true -> PyStr.lower needle = needle.
Proof.
  revert s. induction needle as [|a needle IH]; intros s H; [reflexivity|].
  destruct s as [|b s]; simpl in H; [discriminate|].
  destruct (ascii_dec a (PyStr.lower_char b)) as [->|]; [|discriminate].
  simpl. rewrite lower_char_idempotent. f_equal. exact (IH s H).
Qed.

Lemma contains_in_lower (needle s : string) :
  PyStr.contains needle (PyStr.lower s) = true -> PyStr.lower needle = needle.
Proof.
  induction s as [|b s IH]; simpl; intros H.
  - apply orb_true_iff in H as [H|H]; [|discriminate].
    now apply (prefix_of_lower needle "").
  - apply orb_true_iff in H as [H|H]; [|now apply IH].
    now apply (prefix_of_lower needle (String b s)).
Qed.

(** A pattern with a capital letter is never found in a lower-cased text. *)
Lemma capitalised_not_in_lower (needle s : string) :
  PyStr.lower needle <> needle ->
  PyStr.contains needle (PyStr.lower s) = false.
Proof.
  intros Hn. destruct (PyStr.contains needle (PyStr.lower s)) eqn:H;
    [|reflexivity].
  now destruct Hn; apply (contains_in_lower needle s).
Qed.

Lemma lower_idempotent (s : string) :
  PyStr.lower (PyStr.lower s) = PyStr.lower s.
Proof.
  induction s as [|c s IH]; simpl; [reflexivity|].
  now rewrite lower_char_idempotent, IH.
Qed.

(** ** Runs of the dispatcher *)

Lemma printed_app (a b : list event) :
  printed (a ++ b) = (printed a ++ printed b)%list.
Proof.
  induction a as [|ev a IH]; [reflexivity|].
  destruct ev; simpl; now rewrite ?IH.
Qed.

Section DispatcherRuns.

Variable W : World.
Variable prompt : pyvalue.

(** The [try] body writes nothing to the log. *)
Lemma analyze_body_prints_nothing (v : pyvalue) :
  printed (trace (analyze_body W prompt v)) = [].
Proof.
  destruct v as [ | s | n | b | img]; try reflexivity.
  - unfold analyze_body.
    destruct (negb (PyStr.truthy (PyStr.strip s))); [reflexivity|].
    dispatch; reflexivity.
  - dispatch; reflexivity.
Qed.

(** The function as a whole, from the run of its [try] body. *)
Lemma analyze_content_from_body (v : pyvalue) :
  analyze_content W prompt v =
  match result (analyze_body W prompt v) with
  | Returned _ => analyze_body W prompt v
  | Raised e =>
      if is_Exception e
      then ((trace (analyze_body W prompt v)
               ++ [Print ("Gemini API Error: " ++ exc_str e)])%list,
            Returned (Diagnostic.generic_prefix ++ exc_str e
                      ++ error_hint (exc_str e)))
      else analyze_body W prompt v
  end.
Proof.
  unfold analyze_content, try_except, trace, result.
  destruct (analyze_body W prompt v) as [t [out|e]]; simpl; [reflexivity|].
  destruct (is_Exception e); reflexivity.
Qed.

End DispatcherRuns.

(** X2.  The log gets one line per caught fault and nothing else: when the
    client raises an [Exception], the function ends by printing
    "Gemini API Error: " followed by the error text (not the diagnostic it
    returns, and without the hint); in every other run it prints nothing. *)
Theorem log_holds_only_the_fault_line (W : World) (prompt v : pyvalue) :
  match result (analyze_body W prompt v) with
  | Returned _ => printed (trace (analyze_content W prompt v)) = []
  | Raised e =>
      if is_Exception e then
        trace (analyze_content W prompt v) =
          (trace (analyze_body W prompt v)
             ++ [Print ("Gemini API Error: " ++ exc_str e)])%list
        /\ printed (trace (analyze_content W prompt v)) =
           ["Gemini API Error: " ++ exc_str e]
      else printed (trace (analyze_content W prompt v)) = []
  end.
Proof.
  rewrite analyze_content_from_body.
  pose proof (analyze_body_prints_nothing W prompt v) as Hp.
  destruct (result (analyze_body W prompt v)) as [out|e]; [exact Hp|].
  destruct (is_Exception e); [|exact Hp].
  split; [reflexivity|].
  unfold trace at 1. simpl fst. rewrite printed_app, Hp. reflexivity.
Qed.

(** X3.  A fault of the client that is not an [Exception] goes through the
    function untouched: same fault, same trace as the [try] body, so no log
    line and no diagnostic. *)
Theorem non_Exception_fault_passes_through (W : World) (prompt v : pyvalue) (e : exc) :
  result (analyze_body W prompt v) = Raised e ->
  is_Exception e = false ->
  analyze_content W prompt v = analyze_body W prompt v
  /\ result (analyze_content W prompt v) = Raised e
  /\ printed (trace (analyze_content W prompt v)) = [].
Proof.
  intros Hb He.
  assert (E : analyze_content W prompt v = analyze_body W prompt v)
    by (rewrite analyze_content_from_body, Hb, He; reflexivity).
  rewrite E. repeat split; [exact Hb | apply analyze_body_prints_nothing].
Qed.

Lemma non_Exception_fault_passes_through_witness :
  result (analyze_content (Examples.failing StopException) (PyStr "rubric")
            (PyImage Examples.empty_image)) = Raised StopException.
Proof.
  exact (proj1 (proj2 (non_Exception_fault_passes_through
                         (Examples.failing StopException) (PyStr "rubric")
                         (PyImage Examples.empty_image) StopException
                         eq_refl eq_refl))).
Defined.

(** X4.  Only the image branch calls [resolve()].  For one and the same
    response whose [resolve()] raises an [Exception] while its [.text] can
    be read, a string payload gets the text, an image payload gets the
    diagnostic of the [resolve()] fault. *)
Theorem resolve_fault_counts_for_images_only
        (W : World) (prompt : pyvalue) (s : string) (img : Image)
        (r : response) (e : exc) (out : string) :
  PyStr.truthy (PyStr.strip s) = true ->
  remote_generate W text_model [prompt; PyStr s] None = Returned r ->
  remote_generate W vision_model [prompt; PyImage img] (Some false) = Returned r ->
  resolve r = Raised e ->
  is_Exception e = true ->
  text r = Returned out ->
  result (analyze_content W prompt (PyStr s)) = Returned out
  /\ result (analyze_content W prompt (PyImage img)) =
     Returned (Diagnostic.generic_prefix ++ exc_str e ++ error_hint (exc_str e)).
Proof.
  intros Hs Ht Hv Hr He Hout. split.
  - unfold analyze_content, analyze_body. rewrite Hs.
    unfold generate_content, bind, emit, lift, try_except, result; simpl.
    rewrite Ht; simpl. rewrite Hout. reflexivity.
  - apply analyze_content_caught; [|exact He].
    apply analyze_body_fault_image. now rewrite Hv, Hr.
Qed.

Lemma resolve_fault_counts_for_images_only_witness :
  let r := mkResponse (Raised (mkExc true "stream broken")) (Returned "NO.") in
  let W := mkWorld (fun _ _ _ => Returned r) (fun b => Raised (mkExc true "bad"))
                   (fun _ => Returned tt) in
  result (analyze_content W (PyStr "rubric") (PyStr "smoke")) = Returned "NO."
  /\ result (analyze_content W (PyStr "rubric") (PyImage Examples.empty_image)) =
     Returned (Diagnostic.generic_prefix ++ "stream broken").
Proof.
  exact (resolve_fault_counts_for_images_only
           (mkWorld (fun _ _ _ =>
                       Returned (mkResponse (Raised (mkExc true "stream broken"))
                                            (Returned "NO.")))
                    (fun b => Raised (mkExc true "bad"))
                    (fun _ => Returned tt))
           (PyStr "rubric") "smoke" Examples.empty_image
           (mkResponse (Raised (mkExc true "stream broken")) (Returned "NO."))
           (mkExc true "stream broken") "NO."
           eq_refl eq_refl eq_refl eq_refl eq_refl eq_refl).
Defined.

(** X5.  A fault text without capital letters can only get the
    content-policy hint, the quota hint or none: the patterns for the
    credential hint, for "Resource has been exhausted" and for the timeout
    hint are compared as written and each holds a capital. *)
Theorem lower_case_text_hints (s : string) :
  error_hint (PyStr.lower s) =
  if Diagnostic.matches_content_policy s then Diagnostic.content_policy_hint
  else if Diagnostic.contains_nocase "quota" s then Diagnostic.quota_hint
  else "".
Proof.
  unfold error_hint, Diagnostic.matches_content_policy, Diagnostic.contains_nocase.
  rewrite lower_idempotent.
  rewrite (capitalised_not_in_lower "API key not valid" s) by discriminate.
  rewrite (capitalised_not_in_lower "Resource has been exhausted" s) by discriminate.
  rewrite (capitalised_not_in_lower "Deadline exceeded" s) by discriminate.
  reflexivity.
Qed.

(** * Further properties of the submit handler *)


(** X6.  A run of the handler calls the dispatcher at most once, and every
    such call sends exactly one request: the spinner and the request appear
    together, exactly when the button was pressed and an input was
    selected.  The two local rejections of the dispatcher are therefore
    never reached from the handler. *)
Theorem one_request_per_analysis (W : World) (SDG9_PROMPT : string)
        (analyze_button : bool) (input_text : string)
        (uploaded_image : option UploadedFile) :
  let run := handle_submit W SDG9_PROMPT analyze_button input_text uploaded_image in
  match selected_input W analyze_button input_text uploaded_image with
  | Some _ =>
      length (network_calls (trace run)) = 1
      /\ spinners (trace run) = ["SDG 9 aiD is analyzing... This may take a moment."]
  | None =>
      network_calls (trace run) = [] /\ spinners (trace run) = []
  end.
Proof.
  intros run. subst run.
  destruct (selected_input W analyze_button input_text uploaded_image)
    as [[v ty]|] eqn:Hsel.
  - destruct (handle_submit_selected W SDG9_PROMPT _ _ _ v ty Hsel)
      as (Hv & Hcalls & notice & ->).
    unfold trace at 1 3. simpl fst. simpl network_calls. simpl spinners.
    rewrite (show_analysis_network_calls W SDG9_PROMPT v ty Hv).
    split; [exact Hcalls|].
    exact (proj1 (show_analysis_widgets W SDG9_PROMPT v ty Hv)).
  - destruct (handle_submit_not_selected W SDG9_PROMPT _ _ _ Hsel)
      as (Hn & Hs & _). now split.
Qed.

(** X7.  Without upload, a text that is not blank is sent as it was
    entered, blanks at its ends included, in one request through the text
    handle; no expander is opened and no image is drawn. *)
Theorem entered_text_sent_untrimmed (W : World) (SDG9_PROMPT : string)
        (input_text : string) :
  PyStr.truthy (PyStr.strip input_text) = true ->
  let run := handle_submit W SDG9_PROMPT true input_text None in
  network_calls (trace run) =
    [GenerateContent text_model [PyStr SDG9_PROMPT; PyStr input_text] None]
  /\ expanders (trace run) = []
  /\ images_shown (trace run) = [].
Proof.
  intros Hs run. subst run.
  assert (Hsel : selected_input W true input_text None =
                 Some (PyStr input_text, Some "text"))
    by (unfold selected_input; now rewrite Hs).
  destruct (handle_submit_selected W SDG9_PROMPT _ _ _ _ _ Hsel)
    as (Hv & _ & notice & ->).
  destruct (show_analysis_widgets W SDG9_PROMPT _ (Some "text") Hv)
    as (_ & He & Hi).
  unfold trace at 1 3 5. cbn [fst].
  simpl network_calls. simpl expanders. simpl images_shown.
  rewrite (show_analysis_network_calls W SDG9_PROMPT _ _ Hv), He, Hi.
  split; [now apply text_run_calls|].
  now destruct (result (analyze_content W (PyStr SDG9_PROMPT) (PyStr input_text))).
Qed.

Lemma entered_text_sent_untrimmed_witness :
  network_calls
    (trace (handle_submit (Examples.answering "NO.") "rubric" true
              "  smoke over the plant " None)) =
  [GenerateContent text_model
     [PyStr "rubric"; PyStr "  smoke over the plant "] None].
Proof.
  exact (proj1 (entered_text_sent_untrimmed (Examples.answering "NO.") "rubric"
                  "  smoke over the plant " eq_refl)).
Defined.

(** X8.  The expander is opened exactly when an upload was decoded and its
    analysis returned a string, and the uploaded image is drawn in it
    exactly when, in addition, [st.image] returns; neither happens for a
    text, after a fault of the analysis, or in a run that stopped earlier. *)
Theorem image_shown_again_after_its_analysis (W : World) (SDG9_PROMPT : string)
        (analyze_button : bool) (input_text : string)
        (uploaded_image : option UploadedFile) :
  let run := handle_submit W SDG9_PROMPT analyze_button input_text uploaded_image in
  match selected_input W analyze_button input_text uploaded_image with
  | Some (PyImage img, _) =>
      match result (analyze_content W (PyStr SDG9_PROMPT) (PyImage img)) with
      | Returned _ =>
          expanders (trace run) = ["See Uploaded Image"]
          /\ images_shown (trace run) =
             match st_image_outcome W (PyImage img) with
             | Returned _ => [PyImage img]
             | Raised _ => []
             end
      | Raised _ => expanders (trace run) = [] /\ images_shown (trace run) = []
      end
  | _ => expanders (trace run) = [] /\ images_shown (trace run) = []
  end.
Proof.
  intros run. subst run.
  destruct (selected_input W analyze_button input_text uploaded_image)
    as [[v ty]|] eqn:Hsel.
  - destruct (handle_submit_selected W SDG9_PROMPT _ _ _ v ty Hsel)
      as (Hv & _ & notice & ->).
    destruct (show_analysis_widgets W SDG9_PROMPT v ty Hv) as (_ & He & Hi).
    assert (Ee : forall t (o : outcome unit),
               expanders (trace (ResultsArea Info notice :: t, o)) =
               expanders t) by reflexivity.
    assert (Ei : forall t (o : outcome unit),
               images_shown (trace (ResultsArea Info notice :: t, o)) =
               images_shown t) by reflexivity.
    rewrite !Ee, !Ei, He, Hi.
    unfold selected_input in Hsel. destruct analyze_button; [|discriminate].
    destruct uploaded_image as [f|].
    + destruct (Image_open W (getvalue f)) as [img|e]; [|discriminate].
      injection Hsel as <- <-. simpl input_type_is.
      destruct (result (analyze_content W (PyStr SDG9_PROMPT) (PyImage img)));
        split; reflexivity.
    + destruct (PyStr.truthy (PyStr.strip input_text)); [|discriminate].
      injection Hsel as <- <-. simpl input_type_is.
      destruct (result (analyze_content W (PyStr SDG9_PROMPT) (PyStr input_text)));
        split; reflexivity.
  - destruct (handle_submit_not_selected W SDG9_PROMPT _ _ _ Hsel)
      as (_ & _ & He & Hi & _).
    split; assumption.
Qed.

(** X9.  A fault of the client that the dispatcher catches reaches the user
    as if it were an analysis: the results panel renders the diagnostic.
    For a text, and for an upload that [st.image] can draw, the download
    then offers the same diagnostic and the run ends normally; if
    [st.image] raises, there is no download and the run ends on that
    fault. *)
Theorem caught_fault_shown_as_result (W : World) (SDG9_PROMPT : string)
        (analyze_button : bool) (input_text : string)
        (uploaded_image : option UploadedFile)
        (v : pyvalue) (ty : option string) (e : exc) :
  selected_input W analyze_button input_text uploaded_image = Some (v, ty) ->
  result (analyze_body W (PyStr SDG9_PROMPT) v) = Raised e ->
  is_Exception e = true ->
  let run := handle_submit W SDG9_PROMPT analyze_button input_text uploaded_image in
  let diagnostic :=
    Diagnostic.generic_prefix ++ exc_str e ++ error_hint (exc_str e) in
  results_panel (trace run) = Some (Markdown, diagnostic)
  /\ downloads (trace run) =
     (if redisplay_succeeds W v ty
      then [(diagnostic, "analysis_result.txt", "text/plain")]
      else [])
  /\ result run =
     (if input_type_is ty "image" then
        match st_image_outcome W v with
        | Returned _ => Returned tt
        | Raised e' => Raised e'
        end
      else Returned tt).
Proof.
  intros Hsel Hbody He run diagnostic. subst run diagnostic.
  destruct (handle_submit_selected W SDG9_PROMPT _ _ _ v ty Hsel)
    as (Hv & _ & notice & ->).
  pose proof (analyze_content_caught W (PyStr SDG9_PROMPT) v e Hbody He) as Hres.
  pose proof (show_analysis_panel_download W SDG9_PROMPT v ty
                [ResultsArea Info notice] Info notice Hv eq_refl eq_refl) as Hpd.
  cbv zeta in Hpd. rewrite Hres in Hpd. destruct Hpd as [Hp Hd].
  repeat split; [exact Hp | exact Hd |].
  unfold result at 1. cbn [snd].
  rewrite (show_analysis_result W SDG9_PROMPT v ty Hv), Hres. reflexivity.
Qed.

Lemma caught_fault_shown_as_result_witness :
  let W := Examples.failing (mkExc true "quota used up") in
  let run := handle_submit W "rubric" true "smoke" None in
  results_panel (trace run) =
    Some (Markdown, Diagnostic.generic_prefix ++ "quota used up"
                    ++ Diagnostic.quota_hint)
  /\ downloads (trace run) =
     [(Diagnostic.generic_prefix ++ "quota used up" ++ Diagnostic.quota_hint,
       "analysis_result.txt", "text/plain")]
  /\ result run = Returned tt.
Proof.
  exact (caught_fault_shown_as_result
           (Examples.failing (mkExc true "quota used up")) "rubric" true "smoke"
           None (PyStr "smoke") (Some "text") (mkExc true "quota used up")
           eq_refl eq_refl eq_refl).
Defined.

(** X11.  Pressing the button with a blank text and no upload only shows
    the warning and stops the run: no spinner, no request, no download. *)
Theorem blank_submission_warns_and_stops (W : World) (SDG9_PROMPT : string)
        (input_text : string) :
  PyStr.all_space input_text = true ->
  handle_submit W SDG9_PROMPT true input_text None =
  ([ResultsArea Warning "Please enter text or upload an image for analysis."],
   Raised StopException).
Proof.
  intros Hs. unfold handle_submit, select_input.
  rewrite strip_truthy_all_space, Hs. reflexivity.
Qed.

Lemma blank_submission_warns_and_stops_witness :
  handle_submit (Examples.answering "NO.") "rubric" true
                (PyStr.nl ++ Examples.nbsp ++ " ") None =
  ([ResultsArea Warning "Please enter text or upload an image for analysis."],
   Raised StopException).
Proof.
  exact (blank_submission_warns_and_stops (Examples.answering "NO.") "rubric"
           (PyStr.nl ++ Examples.nbsp ++ " ") eq_refl).
Defined.

(** X12.  An upload that cannot be decoded ends the run on the error
    notice carrying the decoder's message; the entered text is not used
    instead, whatever it is. *)
Theorem undecodable_upload_stops_the_run (W : World) (SDG9_PROMPT : string)
        (input_text : string) (f : UploadedFile) (e : exc) :
  Image_open W (getvalue f) = Raised e ->
  is_Exception e = true ->
  handle_submit W SDG9_PROMPT true input_text (Some f) =
  ([ResultsArea Error ("Error processing image: " ++ exc_str e)],
   Raised StopException).
Proof.
  intros Ho He. unfold handle_submit.
  rewrite select_input_upload, Ho, He. reflexivity.
Qed.

Lemma undecodable_upload_stops_the_run_witness :
  let W := mkWorld (fun _ _ _ => Raised (mkExc true "unreachable"))
                   (fun _ => Raised (mkExc true "cannot identify image file"))
                   (fun _ => Returned tt) in
  handle_submit W "rubric" true "smoke over the plant" (Some Examples.upload) =
  ([ResultsArea Error "Error processing image: cannot identify image file"],
   Raised StopException).
Proof.
  exact (undecodable_upload_stops_the_run
           (mkWorld (fun _ _ _ => Raised (mkExc true "unreachable"))
                    (fun _ => Raised (mkExc true "cannot identify image file"))
                    (fun _ => Returned tt))
           "rubric" "smoke over the plant" Examples.upload
           (mkExc true "cannot identify image file") eq_refl eq_refl).
Defined.

(** * Properties of the whole script *)

Lemma body_events_app (a b : list Script.page_event) :
  Script.body_events (a ++ b) = (Script.body_events a ++ Script.body_events b)%list.
Proof.
  induction a as [|ev a IH]; [reflexivity|].
  destruct ev; simpl; now rewrite ?IH.
Qed.

Lemma body_events_embedded (t : list event) :
  Script.body_events (map Script.Body t) = t.
Proof. induction t as [|ev t IH]; simpl; now rewrite ?IH. Qed.

Lemma widgets_of_embedded (t : list event) :
  filter Script.is_widget (map Script.Body t) = [].
Proof. induction t as [|ev t IH]; simpl; now rewrite ?IH. Qed.

Section ScriptRuns.

Variable H : Script.Host.
Variable W : World.
Variable ws : Script.Widgets.

Let key : option string := Script.os_getenv H "GOOGLE_API_KEY".

(** Lines 12-19, case by case. *)
Lemma configure_api_run :
  Script.configure_api H =
  match Script.configure H key with
  | Returned _ =>
      if Script.truthy_env key
      then ([Script.Configure key], Returned tt)
      else ([Script.Configure key;
             Script.StError
               "GOOGLE_API_KEY not found. Please ensure it's set in your .env file."],
            Raised StopException)
  | Raised e =>
      if is_Exception e
      then ([Script.Configure key;
             Script.StError ("Error configuring Gemini API: " ++ exc_str e)],
            Raised StopException)
      else ([Script.Configure key], Raised e)
  end.
Proof.
  unfold Script.configure_api, key.
  destruct (Script.configure H (Script.os_getenv H "GOOGLE_API_KEY")) as [u|e].
  - destruct (Script.truthy_env (Script.os_getenv H "GOOGLE_API_KEY")); reflexivity.
  - unfold Script.ptry, Script.pbind, Script.pemit, Script.plift. simpl.
    destruct (is_Exception e); reflexivity.
Qed.

(** Lines 22-27, case by case. *)
Lemma make_models_run :
  Script.make_models H =
  let name := "gemini-1.5-flash" in
  let failed (attempts : list Script.page_event) (e : exc) :=
      if is_Exception e
      then ((attempts ++
             [Script.StError ("Error initializing Gemini models: " ++ exc_str e)])%list,
            Raised StopException)
      else (attempts, Raised e) in
  match Script.construct H 0 name with
  | Raised e => failed [Script.NewModel 0 name] e
  | Returned _ =>
      match Script.construct H 1 name with
      | Raised e => failed [Script.NewModel 0 name; Script.NewModel 1 name] e
      | Returned _ =>
          ([Script.NewModel 0 name; Script.NewModel 1 name], Returned tt)
      end
  end.
Proof.
  unfold Script.make_models, Script.ptry, Script.pbind, Script.pemit, Script.plift.
  cbv zeta. simpl.
  destruct (Script.construct H 0 "gemini-1.5-flash") as [u|e]; simpl.
  - destruct (Script.construct H 1 "gemini-1.5-flash") as [[]|e]; simpl;
      [reflexivity|].
    destruct (is_Exception e); reflexivity.
  - destruct (is_Exception e); reflexivity.
Qed.

(** Lines 79-121 always go through, and draw the same page whatever the
    widgets hold. *)
Lemma draw_page_run :
  Script.draw_page ws =
  (Script.page_trace (Script.draw_page (Script.mkWidgets "" None false)),
   Returned (Script.text_area_value ws, Script.file_uploader_value ws,
             Script.button_value ws)).
Proof. reflexivity. Qed.

Lemma draw_page_all_widgets :
  filter Script.is_widget (Script.page_trace (Script.draw_page ws)) =
  Script.page_trace (Script.draw_page ws)
  /\ Script.body_events (Script.page_trace (Script.draw_page ws)) = [].
Proof. split; reflexivity. Qed.

(** The run of the script once start-up went through. *)
Lemma script_after_startup :
  Script.truthy_env key = true ->
  Script.configure H key = Returned tt ->
  Script.construct H 0 "gemini-1.5-flash" = Returned tt ->
  Script.construct H 1 "gemini-1.5-flash" = Returned tt ->
  let handler :=
    handle_submit W Script.SDG9_PROMPT (Script.button_value ws)
                  (Script.text_area_value ws) (Script.file_uploader_value ws) in
  Script.script H W ws =
  (([Script.LoadDotenv; Script.Configure key;
     Script.NewModel 0 "gemini-1.5-flash"; Script.NewModel 1 "gemini-1.5-flash"]
      ++ Script.page_trace (Script.draw_page ws) ++ map Script.Body (trace handler))%list,
   result handler).
Proof.
  intros Hk Hc H0 H1 handler. subst handler.
  unfold Script.script.
  rewrite configure_api_run, make_models_run. cbv zeta.
  rewrite Hc, Hk, H0, H1.
  set (page := Script.page_trace (Script.draw_page ws)).
  rewrite draw_page_run.
  unfold Script.pbind, Script.pemit, Script.embed, trace, result.
  cbv beta iota.
  destruct (handle_submit W Script.SDG9_PROMPT (Script.button_value ws)
              (Script.text_area_value ws) (Script.file_uploader_value ws))
    as [t o].
  subst page. reflexivity.
Qed.

(** A run in which start-up did not go through never reaches the page. *)
Lemma script_startup_failed :
  (Script.truthy_env key = false
   \/ (exists e, Script.configure H key = Raised e)
   \/ (exists e, Script.construct H 0 "gemini-1.5-flash" = Raised e)
   \/ (exists e, Script.construct H 1 "gemini-1.5-flash" = Raised e)) ->
  Script.body_events (Script.page_trace (Script.script H W ws)) = []
  /\ filter Script.is_widget (Script.page_trace (Script.script H W ws)) = []
  /\ exists e, Script.page_result (Script.script H W ws) = Raised e.
Proof.
  intros Hfail. unfold Script.script.
  rewrite configure_api_run, make_models_run. cbv zeta.
  destruct (Script.configure H key) as [u|e].
  - destruct (Script.truthy_env key) eqn:Hk.
    + destruct (Script.construct H 0 "gemini-1.5-flash") as [u0|e0].
      * destruct (Script.construct H 1 "gemini-1.5-flash") as [u1|e1].
        -- exfalso. destruct Hfail as [Hf|[[e Hf]|[[e Hf]|[e Hf]]]]; discriminate.
        -- destruct (is_Exception e1); simpl; repeat split; eauto.
      * destruct (is_Exception e0); simpl; repeat split; eauto.
    + simpl. repeat split; eauto.
  - destruct (is_Exception e); simpl; repeat split; eauto.
Qed.

End ScriptRuns.

(** A run of the handler sends at most one request. *)
Lemma handle_submit_calls_bound (W : World) (SDG9_PROMPT : string)
      (analyze_button : bool) (input_text : string)
      (uploaded_image : option UploadedFile) :
  length (network_calls
            (trace (handle_submit W SDG9_PROMPT analyze_button input_text
                      uploaded_image))) <= 1.
Proof.
  destruct (selected_input W analyze_button input_text uploaded_image)
    as [[v ty]|] eqn:Hsel.
  - destruct (handle_submit_selected W SDG9_PROMPT _ _ _ v ty Hsel)
      as (Hv & Hcalls & notice & ->).
    unfold trace at 1. simpl fst. simpl network_calls.
    rewrite (show_analysis_network_calls W SDG9_PROMPT v ty Hv), Hcalls.
    constructor.
  - destruct (handle_submit_not_selected W SDG9_PROMPT _ _ _ Hsel) as (-> & _).
    simpl. lia.
Qed.



(** X14.  When [genai.configure] raises an [Exception], the run shows
    "Error configuring Gemini API: " followed by the error text and stops,
    whether or not a key is present; the key test is not reached. *)
Theorem configure_fault_stops_the_script (H : Script.Host) (W : World)
        (ws : Script.Widgets) (e : exc) :
  let key := Script.os_getenv H "GOOGLE_API_KEY" in
  Script.configure H key = Raised e ->
  is_Exception e = true ->
  Script.script H W ws =
  ([Script.LoadDotenv; Script.Configure key;
    Script.StError ("Error configuring Gemini API: " ++ exc_str e)],
   Raised StopException).
Proof.
  intros key Hc He. unfold Script.script. rewrite configure_api_run.
  fold key. rewrite Hc, He. reflexivity.
Qed.

Lemma configure_fault_stops_the_script_witness :
  let H := Script.mkHost (fun _ => Some "k-123")
                         (fun _ => Raised (mkExc true "bad transport"))
                         (fun _ _ => Returned tt) in
  Script.script H (Examples.answering "NO.") (Script.mkWidgets "smoke" None true) =
  ([Script.LoadDotenv; Script.Configure (Some "k-123");
    Script.StError "Error configuring Gemini API: bad transport"],
   Raised StopException).
Proof.
  exact (configure_fault_stops_the_script
           (Script.mkHost (fun _ => Some "k-123")
                          (fun _ => Raised (mkExc true "bad transport"))
                          (fun _ _ => Returned tt))
           (Examples.answering "NO.") (Script.mkWidgets "smoke" None true)
           (mkExc true "bad transport") eq_refl eq_refl).
Defined.

(** X15.  When building a handle raises an [Exception], the run shows
    "Error initializing Gemini models: " followed by the error text and
    stops before the page is drawn; if the first construction fails the
    second is not attempted. *)
Theorem model_fault_stops_the_script (H : Script.Host) (W : World)
        (ws : Script.Widgets) (e : exc) :
  let key := Script.os_getenv H "GOOGLE_API_KEY" in
  let name := "gemini-1.5-flash" in
  let notice :=
    Script.StError ("Error initializing Gemini models: " ++ exc_str e) in
  Script.truthy_env key = true ->
  Script.configure H key = Returned tt ->
  is_Exception e = true ->
  (Script.construct H 0 name = Raised e ->
   Script.script H W ws =
   ([Script.LoadDotenv; Script.Configure key; Script.NewModel 0 name; notice],
    Raised StopException))
  /\ (Script.construct H 0 name = Returned tt ->
      Script.construct H 1 name = Raised e ->
      Script.script H W ws =
      ([Script.LoadDotenv; Script.Configure key; Script.NewModel 0 name;
        Script.NewModel 1 name; notice],
       Raised StopException)).
Proof.
  intros key name notice Hk Hc He. subst name notice. split.
  - intros H0. unfold Script.script.
    rewrite configure_api_run, make_models_run. fold key. cbv zeta.
    rewrite Hc, Hk, H0, He. reflexivity.
  - intros H0 H1. unfold Script.script.
    rewrite configure_api_run, make_models_run. fold key. cbv zeta.
    rewrite Hc, Hk, H0, H1, He. reflexivity.
Qed.

Lemma model_fault_stops_the_script_witness :
  let H := Script.mkHost (fun _ => Some "k-123") (fun _ => Returned tt)
                         (fun id _ => match id with
                                      | 0 => Returned tt
                                      | _ => Raised (mkExc true "unknown model")
                                      end) in
  Script.script H (Examples.answering "NO.") (Script.mkWidgets "smoke" None true) =
  ([Script.LoadDotenv; Script.Configure (Some "k-123");
    Script.NewModel 0 "gemini-1.5-flash"; Script.NewModel 1 "gemini-1.5-flash";
    Script.StError "Error initializing Gemini models: unknown model"],
   Raised StopException).
Proof.
  exact (proj2 (model_fault_stops_the_script
                  (Script.mkHost (fun _ => Some "k-123") (fun _ => Returned tt)
                     (fun id _ => match id with
                                  | 0 => Returned tt
                                  | _ => Raised (mkExc true "unknown model")
                                  end))
                  (Examples.answering "NO.") (Script.mkWidgets "smoke" None true)
                  (mkExc true "unknown model") eq_refl eq_refl eq_refl)
               eq_refl eq_refl).
Defined.

(** X17.  A run of the script sends at most one request to the provider,
    whatever the environment, the client and the widgets do. *)
Theorem script_sends_at_most_one_request (H : Script.Host) (W : World)
        (ws : Script.Widgets) :
  length (network_calls
            (Script.body_events (Script.page_trace (Script.script H W ws)))) <= 1.
Proof.
  destruct (Script.truthy_env (Script.os_getenv H "GOOGLE_API_KEY")) eqn:Hk;
    [|rewrite (proj1 (script_startup_failed H W ws (or_introl Hk))); simpl; lia].
  destruct (Script.configure H (Script.os_getenv H "GOOGLE_API_KEY"))
    as [[]|e] eqn:Hc;
    [|rewrite (proj1 (script_startup_failed H W ws
                        (or_intror (or_introl (ex_intro _ e Hc)))));
      simpl; lia].
  destruct (Script.construct H 0 "gemini-1.5-flash") as [[]|e] eqn:H0;
    [|rewrite (proj1 (script_startup_failed H W ws
                        (or_intror (or_intror (or_introl (ex_intro _ e H0))))));
      simpl; lia].
  destruct (Script.construct H 1 "gemini-1.5-flash") as [[]|e] eqn:H1;
    [|rewrite (proj1 (script_startup_failed H W ws
                        (or_intror (or_intror (or_intror (ex_intro _ e H1))))));
      simpl; lia].
  rewrite (script_after_startup H W ws Hk Hc H0 H1).
  destruct (draw_page_all_widgets ws) as [_ Hb].
  unfold Script.page_trace in *. cbn [fst].
  rewrite !body_events_app, Hb, body_events_embedded.
  apply handle_submit_calls_bound.
Qed.
